(** * TinyProbe: the main loop of the ATtiny13A logic probe

    A shallow embedding of [software/TinyProbe.ino] (v1.0, the variant
    with pin change interrupt and OSC_DUR = 50).  The firmware is one
    straight-line loop body over a handful of 8-bit I/O registers and
    local variables; it is embedded as a store transformer written
    statement by statement, in the order of the source.

    What the hardware delivers is an input of each loop pass: the two
    ADC conversions, the two reads of PINB, and the number of times the
    pin change interrupt ran while PCMSK had the probe pin enabled. *)

From Stdlib Require Import ZArith Bool List Lia.
Import ListNotations.
Local Open Scope Z_scope.

(** ** Registers and variables *)

(** The I/O registers with plain memory semantics that the loop writes,
    the global [isOscillating] and the locals of [main]. *)
Inductive var : Set :=
  | PORTB | DDRB | ADMUX | PCMSK
  | isOscillating
  | valSwitch | valProbe | valHigh | valLow
  | isHigh | isLow | lastHigh | lastLow
  | isFloating.

Scheme Equality for var.

(** [uint16_t valSwitch, valProbe, valHigh, valLow]; everything else is
    [uint8_t] or an 8-bit register. *)
Definition width (x : var) : Z :=
  match x with
  | valSwitch | valProbe | valHigh | valLow => 16
  | _ => 8
  end.

(** The store: one cell per register and variable. *)
#[projections(primitive)]
Record state : Set := mkState {
  c_PORTB : Z; c_DDRB : Z; c_ADMUX : Z; c_PCMSK : Z;
  c_isOscillating : Z;
  c_valSwitch : Z; c_valProbe : Z; c_valHigh : Z; c_valLow : Z;
  c_isHigh : Z; c_isLow : Z; c_lastHigh : Z; c_lastLow : Z;
  c_isFloating : Z
}.

Definition get (s : state) (x : var) : Z :=
  match x with
  | PORTB => c_PORTB s | DDRB => c_DDRB s
  | ADMUX => c_ADMUX s | PCMSK => c_PCMSK s
  | isOscillating => c_isOscillating s
  | valSwitch => c_valSwitch s | valProbe => c_valProbe s
  | valHigh => c_valHigh s | valLow => c_valLow s
  | isHigh => c_isHigh s | isLow => c_isLow s
  | lastHigh => c_lastHigh s | lastLow => c_lastLow s
  | isFloating => c_isFloating s
  end.

Coercion get : state >-> Funclass.

Definition upd (s : state) (x : var) (v : Z) : state :=
  let pick y := if var_beq x y then v else s y in
  mkState (pick PORTB) (pick DDRB) (pick ADMUX) (pick PCMSK)
          (pick isOscillating)
          (pick valSwitch) (pick valProbe) (pick valHigh) (pick valLow)
          (pick isHigh) (pick isLow) (pick lastHigh) (pick lastLow)
          (pick isFloating).

Definition wrap (w v : Z) : Z := v mod 2 ^ w.

(** ** Statements and expressions *)

Definition expr := state -> Z.
Definition stmt := state -> state.

Definition skip : stmt := fun s => s.

(** [x = e;] with the conversion to the type of [x]. *)
Definition assign (x : var) (e : expr) : stmt :=
  fun s => upd s x (wrap (width x) (e s)).

Definition seq (a b : stmt) : stmt := fun s => b (a s).

(** [if (c) t else e]: any nonzero value of [c] is true. *)
Definition ifnz (c : expr) (t e : stmt) : stmt :=
  fun s => if c s =? 0 then e s else t s.

Definition rd (x : var) : expr := fun s => s x.
Definition lit (n : Z) : expr := fun _ => n.

Definition c_bool (b : bool) : Z := if b then 1 else 0.

(** C operators on [int]-promoted operands. *)
Definition c_lt (a b : expr) : expr := fun s => c_bool (a s <? b s).
Definition c_gt (a b : expr) : expr := fun s => c_bool (a s >? b s).
Definition c_not (a : expr) : expr := fun s => c_bool (a s =? 0).
Definition c_and (a b : expr) : expr :=
  fun s => if a s =? 0 then 0 else c_bool (negb (b s =? 0)).
Definition c_or (a b : expr) : expr :=
  fun s => if a s =? 0 then c_bool (negb (b s =? 0)) else 1.
Definition c_band (a b : expr) : expr := fun s => Z.land (a s) (b s).
Definition c_bor (a b : expr) : expr := fun s => Z.lor (a s) (b s).
Definition c_bnot (a : expr) : expr := fun s => Z.lnot (a s).
Definition c_sub (a b : expr) : expr := fun s => a s - b s.

Declare Scope probe_scope.
Delimit Scope probe_scope with probe.
Notation "x ::= e" := (assign x e) (at level 60, no associativity) : probe_scope.
Notation "x |= e" := (assign x (c_bor (rd x) e))
  (at level 60, no associativity) : probe_scope.
Notation "x &= e" := (assign x (c_band (rd x) e))
  (at level 60, no associativity) : probe_scope.
Notation "a ;; b" := (seq a b) (at level 61, right associativity) : probe_scope.
Notation "! x" := (rd x) (at level 1, format "! x") : probe_scope.
Notation "# n" := (lit n) (at level 1, format "# n") : probe_scope.

(** ** Definitions of the source *)

Definition TTL_LOW   : Z := 164.
Definition TTL_HIGH  : Z := 409.
Definition CMOS_LOW  : Z := 307.
Definition CMOS_HIGH : Z := 716.
Definition OSC_DUR   : Z := 50.

(** ** What the hardware delivers in one pass of the loop *)

Record inputs : Set := mkInputs {
  adc_switch : Z;   (* ADC after the conversion on ADC0 (level select)     *)
  edges      : nat; (* runs of ISR(PCINT0_vect) while PCMSK = 0b00001000   *)
  pinb_up    : Z;   (* PINB with the probe line pulled up                  *)
  pinb_down  : Z;   (* PINB with the probe line pulled down                *)
  adc_probe  : Z    (* ADC after the conversion on ADC3 (probe)            *)
}.

Local Open Scope probe_scope.

(** [ISR(PCINT0_vect)] *)
Definition ISR_PCINT0 : stmt :=
  isOscillating ::= #OSC_DUR.

Fixpoint interrupts (n : nat) : stmt :=
  match n with
  | O => skip
  | S k => ISR_PCINT0 ;; interrupts k
  end.

(** Setup of GPIO at the top of [main].  The configuration of the ADC
    (ADCSRA) and the enabling of interrupts (GIMSK, SREG) have no
    memory effect the loop reads back; they are what makes the ADC
    inputs and [edges] arrive. *)
Definition setup : stmt :=
  DDRB  ::= #7 ;;                      (* 0b00000111 *)
  PORTB ::= #0.                        (* 0b00000000 *)

(** "Check logic level selection switch and set high/low thresholds
    accordingly".  The busy wait on ADCSRA ends when the conversion is
    complete; [adc] is the value then read from ADC. *)
Definition select_thresholds (adc : Z) : stmt :=
  valLow  ::= #TTL_LOW ;;
  valHigh ::= #TTL_HIGH ;;
  ADMUX   ::= #0 ;;
  valSwitch ::= #adc ;;
  ifnz (c_lt !valSwitch #768)
    (valLow  ::= #CMOS_LOW ;;
     valHigh ::= #CMOS_HIGH)
    skip.

(** "Check high frequency oscillation using pin change interrupt on
    probe line".  The interrupt can only run between the two writes of
    PCMSK. *)
Definition check_transient (n : nat) : stmt :=
  DDRB  |= #16 ;;                      (* 0b00010000 *)
  PORTB |= #16 ;;                      (* 0b00010000 *)
  PCMSK ::= #8 ;;                      (* 0b00001000 *)
  interrupts n ;;
  PCMSK ::= #0.

(** "Check if probe is floating by testing the behavior when pulling
    up/down". *)
Definition check_floating (pinb1 pinb2 : Z) : stmt :=
  isFloating ::= #pinb1 ;;
  PORTB &= #239 ;;                     (* 0b11101111 *)
  isFloating &= c_bnot #pinb2 ;;
  isFloating &= #8 ;;                  (* 0b00001000 *)
  DDRB &= #239.                        (* 0b11101111 *)

(** "Read voltage on probe line and check if it's logic high or low". *)
Definition classify (adc : Z) : stmt :=
  ADMUX ::= #3 ;;                      (* 0b00000011 *)
  valProbe ::= #adc ;;
  isHigh ::= c_gt !valProbe !valHigh ;;
  isLow  ::= c_lt !valProbe !valLow.

(** "Check low frequency oscillation", up to the override of the
    floating flag. *)
Definition level_changed : expr :=
  c_and (c_not !isFloating)
        (c_or (c_and !isHigh !lastLow) (c_and !isLow !lastHigh)).

Definition check_slow : stmt :=
  ifnz level_changed
    (isOscillating ::= #OSC_DUR)
    skip.

Definition remember : stmt :=
  lastHigh ::= !isHigh ;;
  lastLow  ::= !isLow.

Definition override_floating : stmt :=
  ifnz !isOscillating (isFloating ::= #0) skip.

(** "Set the LEDs (charlieplexing)", statement by statement. *)
Definition leds_off : stmt := PORTB &= #248.      (* 0b11111000 *)

Definition set_FL : stmt := PORTB |= #4.          (* 0b00000100 *)

Definition set_LO_HI : stmt :=
  ifnz !isLow  (PORTB |= #2) skip ;;              (* 0b00000010 *)
  ifnz !isHigh (PORTB |= #5) skip.                (* 0b00000101 *)

Definition set_OS : stmt :=
  ifnz !isOscillating
    (PORTB &= #251 ;;                             (* 0b11111011 *)
     PORTB |= #1 ;;                               (* 0b00000001 *)
     isOscillating ::= c_sub !isOscillating #1)
    skip.

Definition set_leds : stmt :=
  leds_off ;;
  ifnz !isFloating
    set_FL
    (set_LO_HI ;; set_OS).

(** The loop body up to and including the classification. *)
Definition measure (i : inputs) : stmt :=
  select_thresholds (adc_switch i) ;;
  check_transient (edges i) ;;
  check_floating (pinb_up i) (pinb_down i) ;;
  classify (adc_probe i).

(** ... up to the point where [isOscillating] is tested for the
    override of the floating flag. *)
Definition detect (i : inputs) : stmt :=
  measure i ;;
  check_slow ;;
  remember.

(** The state when the output is encoded: everything of the loop body
    before "Set the LEDs". *)
Definition sense (i : inputs) : stmt :=
  detect i ;;
  override_floating.

(** One pass of [while(1)]. *)
Definition cycle (i : inputs) : stmt :=
  sense i ;; set_leds.

Fixpoint run (ins : list inputs) : stmt :=
  match ins with
  | [] => skip
  | i :: rest => cycle i ;; run rest
  end.

Local Close Scope probe_scope.

(** Power-on: the registers hold their reset value 0, the global
    [isOscillating] is zeroed by the C start-up code, and the locals of
    [main] are not initialised: they hold whatever [garbage] the stack
    and registers had, within their type. *)
Definition power_on (garbage : state) : state :=
  let junk x := wrap (width x) (garbage x) in
  mkState 0 0 0 0
          0
          (junk valSwitch) (junk valProbe) (junk valHigh) (junk valLow)
          (junk isHigh) (junk isLow) (junk lastHigh) (junk lastLow)
          (junk isFloating).

Definition boot (garbage : state) : state := setup (power_on garbage).

(** ** Reading the indicators off PORTB

    The three LED pins are PB0..PB2.  The source gives each indicator
    its pin pattern: FL is PB2 alone ([0b100]), LO is PB1 ([0b010]),
    HI is PB0 together with PB2 ([0b101]), and OS is PB0 with PB2
    cleared.  FL and OS share the pair PB2/PB0 in opposite directions.
    An indicator is read as shown when its pattern is on the pins; how
    the LEDs are wired to the pins is not part of the source. *)
Definition pin (n : Z) (p : Z) : bool := Z.testbit p n.

Definition FL_on (p : Z) : bool := pin 2 p && negb (pin 0 p).
Definition LO_on (p : Z) : bool := pin 1 p.
Definition HI_on (p : Z) : bool := pin 0 p && pin 2 p.
Definition OS_on (p : Z) : bool := pin 0 p && negb (pin 2 p).

(** The LED pins as a number 0..7. *)
Definition leds (p : Z) : Z := Z.land p 7.

(** The threshold pair in force, (low, high). *)
Definition thresholds (s : state) : Z * Z := (s valLow, s valHigh).

Definition TTL  : Z * Z := (TTL_LOW, TTL_HIGH).
Definition CMOS : Z * Z := (CMOS_LOW, CMOS_HIGH).

(** A statement that leaves a cell as it found it. *)
Definition preserves (x : var) (p : stmt) : Prop := forall s, p s x = s x.


(** ** Observations used in the statements *)

(** The pair selected for a calibration reading. *)
Definition profile_of (v : Z) : Z * Z := if v <? 768 then CMOS else TTL.

(** What the classifier leaves in a state for the reading [r]. *)
Definition classified (r : Z) (s : state) : Prop :=
  s isHigh = c_bool (r >? s valHigh)
  /\ s isLow = c_bool (r <? s valLow)
  /\ (thresholds s = TTL \/ thresholds s = CMOS)
  /\ ~ (s isHigh <> 0 /\ s isLow <> 0).

Definition counter_in_range (s : state) : Prop :=
  0 <= s isOscillating <= OSC_DUR.

(** A cycle re-triggers when the interrupt runs during its window or
    its slow oscillation check fires. *)
Definition retriggers (i : inputs) (s : state) : bool :=
  negb (edges i =? 0)%nat || negb (level_changed (measure i s) =? 0).

(** Cycles on the inputs [js], from [s] on, none of which re-triggers. *)
Fixpoint quiet (s : state) (js : list inputs) : Prop :=
  match js with
  | [] => True
  | j :: rest => retriggers j s = false /\ quiet (cycle j s) rest
  end.

Definition all_zero : state := mkState 0 0 0 0 0 0 0 0 0 0 0 0 0 0.

(** The state at the output encoding of a first cycle with TTL levels,
    one pin change during the window, a driven line and a probe reading
    of 500: not floating, HIGH, and the count running. *)
Definition high_and_oscillating : state :=
  sense (mkInputs 900 1 8 8 500) (boot all_zero).

(** A cycle with TTL levels, a driven line, a reading between the
    thresholds, and one pin change during the window; and the same
    cycle without any pin change. *)
Definition edge_cycle  : inputs := mkInputs 900 1 8 8 300.
Definition still_cycle : inputs := mkInputs 900 0 8 8 300.

(** ** The polling variant of the loop

    The second program of [software/TinyProbe.ino]: no pin change
    interrupt, [isOscillating] a local of [main], OSC_DUR = 255, the
    slow oscillation check not gated by the floating flag, and no
    override of the floating flag.  The threshold selection, the
    floating check, the classification and the setting of the LEDs are
    the statements of the first program, word for word. *)
Module Polling.

Local Open Scope probe_scope.

Definition OSC_DUR : Z := 255.

(** "check if probe is floating by testing the behavior when pulling
    up/down": here the pull pin is switched on by the check itself. *)
Definition check_floating (pinb1 pinb2 : Z) : stmt :=
  DDRB  |= #16 ;;                    (* 0b00010000 *)
  PORTB |= #16 ;;                    (* 0b00010000 *)
  isFloating ::= #pinb1 ;;
  PORTB &= #239 ;;                   (* 0b11101111 *)
  isFloating &= c_bnot #pinb2 ;;
  isFloating &= #8 ;;                (* 0b00001000 *)
  DDRB &= #239.                      (* 0b11101111 *)

(** "check if probe line is oscillating" *)
Definition level_changed : expr :=
  c_or (c_and !isHigh !lastLow) (c_and !isLow !lastHigh).

Definition check_slow : stmt :=
  ifnz level_changed
    (isOscillating ::= #OSC_DUR)
    skip.

(** The loop body up to and including the classification; the field
    [edges] of the inputs is not read. *)
Definition measure (i : inputs) : stmt :=
  select_thresholds (adc_switch i) ;;
  check_floating (pinb_up i) (pinb_down i) ;;
  classify (adc_probe i).

(** The state when the output is encoded. *)
Definition detect (i : inputs) : stmt :=
  measure i ;;
  check_slow ;;
  remember.

(** One pass of [while(1)]. *)
Definition cycle (i : inputs) : stmt :=
  detect i ;; set_leds.

Fixpoint run (ins : list inputs) : stmt :=
  match ins with
  | [] => skip
  | i :: rest => cycle i ;; run rest
  end.

Local Close Scope probe_scope.

(** Power-on: here [isOscillating] is one of the uninitialised
    locals. *)
Definition power_on (garbage : state) : state :=
  let junk x := wrap (width x) (garbage x) in
  mkState 0 0 0 0
          (junk isOscillating)
          (junk valSwitch) (junk valProbe) (junk valHigh) (junk valLow)
          (junk isHigh) (junk isLow) (junk lastHigh) (junk lastLow)
          (junk isFloating).

Definition boot (garbage : state) : state := setup (power_on garbage).

(** Cycles on the inputs [js], from [s] on, in none of which the line
    reads floating or the classification changes side. *)
Fixpoint calm (s : state) (js : list inputs) : Prop :=
  match js with
  | [] => True
  | j :: rest =>
      measure j s isFloating = 0
      /\ level_changed (measure j s) = 0
      /\ calm (cycle j s) rest
  end.

End Polling.

(** * Properties *)

(** ** The store and the width of a cell *)

Lemma upd_same (s : state) (x : var) (v : Z) : upd s x v x = v.
Proof. destruct x; reflexivity. Qed.

Lemma upd_other (s : state) (x y : var) (v : Z) :
  x <> y -> upd s x v y = s y.
Proof. destruct x, y; intros H; try reflexivity; now elim H. Qed.

Lemma wrap_small (w v : Z) : 0 <= v < 2 ^ w -> wrap w v = v.
Proof. intros H. unfold wrap. now apply Z.mod_small. Qed.

Lemma wrap8_c_bool (b : bool) : wrap 8 (c_bool b) = c_bool b.
Proof. destruct b; reflexivity. Qed.

Lemma pin_wrap (n v : Z) : 0 <= n < 8 -> pin n (wrap 8 v) = pin n v.
Proof. intros H. unfold pin, wrap. apply Z.mod_pow2_bits_low. lia. Qed.

Lemma pin_lor (n a b : Z) : pin n (Z.lor a b) = pin n a || pin n b.
Proof. apply Z.lor_spec. Qed.

Lemma pin_land (n a b : Z) : pin n (Z.land a b) = pin n a && pin n b.
Proof. apply Z.land_spec. Qed.

(** Symbolic execution: statements are unfolded down to record cells,
    one conditional at a time, innermost first; [wrap] and the bit
    operations stay folded, closed values of [wrap] are computed. *)
Ltac ground_pos p :=
  lazymatch p with
  | xH => idtac
  | xO ?q => ground_pos q
  | xI ?q => ground_pos q
  end.

Ltac ground_Z v :=
  lazymatch v with
  | Z0 => idtac
  | Zpos ?p => ground_pos p
  | TTL_LOW => idtac | TTL_HIGH => idtac
  | CMOS_LOW => idtac | CMOS_HIGH => idtac
  | OSC_DUR => idtac
  end.

Ltac exec_consts :=
  repeat match goal with
         | |- context [wrap ?w ?v] =>
             ground_Z v;
             let r := eval vm_compute in (wrap w v) in
             change (wrap w v) with r
         end;
  rewrite ?wrap8_c_bool.

Ltac exec_straight :=
  cbv beta iota zeta delta
      [seq assign skip rd lit upd get var_beq width
       c_lt c_gt c_not c_and c_or c_band c_bor c_bnot c_sub
       c_PORTB c_DDRB c_ADMUX c_PCMSK c_isOscillating
       c_valSwitch c_valProbe c_valHigh c_valLow
       c_isHigh c_isLow c_lastHigh c_lastLow c_isFloating];
  exec_consts.

Ltac exec_if :=
  match goal with
  | |- context [ifnz ?c ?t ?e ?s] =>
      lazymatch s with
      | context [ifnz] => fail
      | context [interrupts] => fail
      | _ =>
          change (ifnz c t e s) with (if c s =? 0 then e s else t s);
          exec_straight;
          match goal with
          | |- context [if ?b then _ else _] => destruct b eqn:?
          end
      end
  end.

Ltac eqb_props :=
  repeat match goal with
         | H : (_ =? _) = true |- _ => apply Z.eqb_eq in H
         | H : (_ =? _) = false |- _ => apply Z.eqb_neq in H
         end.

(** Reads [s x] in the hypotheses, as cells. *)
Ltac cells :=
  cbv beta iota delta
      [get c_PORTB c_DDRB c_ADMUX c_PCMSK c_isOscillating
       c_valSwitch c_valProbe c_valHigh c_valLow
       c_isHigh c_isLow c_lastHigh c_lastLow c_isFloating] in *.

Lemma interrupts_spec (n : nat) (s : state) :
  interrupts n s = if (n =? 0)%nat then s else upd s isOscillating OSC_DUR.
Proof.
  revert s. induction n as [|n IH]; intros s; [reflexivity|].
  cbn [interrupts Nat.eqb]. unfold seq. rewrite IH.
  destruct (n =? 0)%nat; reflexivity.
Qed.

Ltac exec_isr :=
  match goal with
  | |- context [interrupts ?n ?s] =>
      lazymatch s with
      | context [ifnz] => fail
      | _ => rewrite (interrupts_spec n s); destruct (n =? 0)%nat eqn:?
      end
  end.

Ltac exec := exec_straight; repeat (first [exec_if | exec_isr]; exec_straight).

Ltac unfold_loop :=
  unfold cycle, sense, detect, measure, select_thresholds, check_transient,
    check_floating, classify, check_slow, remember, override_floating,
    set_leds, leds_off, set_FL, set_LO_HI, set_OS, level_changed, ISR_PCINT0.

(** ** Frame rules *)

Lemma preserves_skip (x : var) : preserves x skip.
Proof. intros s. reflexivity. Qed.

Lemma preserves_assign (x y : var) (e : expr) :
  y <> x -> preserves x (assign y e).
Proof. intros H s. unfold assign. now apply upd_other. Qed.

Lemma preserves_seq (x : var) (a b : stmt) :
  preserves x a -> preserves x b -> preserves x (seq a b).
Proof. intros Ha Hb s. unfold seq. now rewrite Hb, Ha. Qed.

Lemma preserves_ifnz (x : var) (c : expr) (t e : stmt) :
  preserves x t -> preserves x e -> preserves x (ifnz c t e).
Proof. intros Ht He s. unfold ifnz. destruct (c s =? 0); auto. Qed.

Lemma preserves_interrupts (x : var) (n : nat) :
  isOscillating <> x -> preserves x (interrupts n).
Proof.
  intros H. induction n as [|n IH]; cbn [interrupts].
  - apply preserves_skip.
  - apply preserves_seq; [now apply preserves_assign | exact IH].
Qed.

Ltac frame :=
  unfold_loop;
  repeat first
    [ apply preserves_seq
    | apply preserves_ifnz
    | apply preserves_skip
    | apply preserves_interrupts; discriminate
    | apply preserves_assign; discriminate ].

Lemma cycle_unfold (i : inputs) (s : state) :
  cycle i s = set_leds (override_floating (remember (check_slow (measure i s)))).
Proof. reflexivity. Qed.

Lemma detect_unfold (i : inputs) (s : state) :
  detect i s = remember (check_slow (measure i s)).
Proof. reflexivity. Qed.

Lemma sense_unfold (i : inputs) (s : state) :
  sense i s = override_floating (detect i s).
Proof. reflexivity. Qed.

(** ** The first half of the loop body: [measure] *)

Lemma measure_valLow (i : inputs) (s : state) :
  measure i s valLow =
  if wrap 16 (adc_switch i) <? 768 then CMOS_LOW else TTL_LOW.
Proof.
  unfold_loop. exec; destruct (wrap 16 (adc_switch i) <? 768);
    reflexivity || discriminate.
Qed.

Lemma measure_valHigh (i : inputs) (s : state) :
  measure i s valHigh =
  if wrap 16 (adc_switch i) <? 768 then CMOS_HIGH else TTL_HIGH.
Proof.
  unfold_loop. exec; destruct (wrap 16 (adc_switch i) <? 768);
    reflexivity || discriminate.
Qed.

Lemma measure_isHigh (i : inputs) (s : state) :
  measure i s isHigh =
  c_bool (wrap 16 (adc_probe i) >? measure i s valHigh).
Proof. unfold_loop. exec; reflexivity. Qed.

Lemma measure_isLow (i : inputs) (s : state) :
  measure i s isLow =
  c_bool (wrap 16 (adc_probe i) <? measure i s valLow).
Proof. unfold_loop. exec; reflexivity. Qed.

Lemma measure_isFloating (i : inputs) (s : state) :
  measure i s isFloating =
  wrap 8 (Z.land
            (wrap 8 (Z.land (wrap 8 (pinb_up i)) (Z.lnot (pinb_down i)))) 8).
Proof. unfold_loop. exec; reflexivity. Qed.

Lemma measure_isOscillating (i : inputs) (s : state) :
  measure i s isOscillating =
  if (edges i =? 0)%nat then s isOscillating else OSC_DUR.
Proof. unfold_loop. exec; reflexivity. Qed.

Lemma measure_lastHigh (i : inputs) (s : state) :
  measure i s lastHigh = s lastHigh.
Proof. unfold_loop. exec; reflexivity. Qed.

Lemma measure_lastLow (i : inputs) (s : state) :
  measure i s lastLow = s lastLow.
Proof. unfold_loop. exec; reflexivity. Qed.

(** The thresholds and the classification are not written again after
    [measure]. *)
Lemma classification_kept (x : var) (i : inputs) (s : state) :
  In x [valLow; valHigh; valProbe; isHigh; isLow] ->
  cycle i s x = measure i s x.
Proof.
  intros Hx. rewrite cycle_unfold.
  assert (Hl : preserves x set_leds)
    by (cbn [In] in Hx; intuition subst; frame).
  assert (Ho : preserves x override_floating)
    by (cbn [In] in Hx; intuition subst; frame).
  assert (Hr : preserves x remember)
    by (cbn [In] in Hx; intuition subst; frame).
  assert (Hc : preserves x check_slow)
    by (cbn [In] in Hx; intuition subst; frame).
  now rewrite Hl, Ho, Hr, Hc.
Qed.

(** ** Threshold selection *)

Lemma TTL_neq_CMOS : TTL <> CMOS.
Proof. intros H. inversion H. Qed.

(** C3.  For every calibration reading [v] (a value of the 16-bit ADC
    register), the selector leaves the CMOS pair (307, 716) in
    valLow/valHigh if and only if [v < 768], and the TTL pair
    (164, 409) otherwise.  The pair depends on nothing but [v]: not on
    the state [s] in which the cycle starts, and it is the pair in force
    after the selection, after the measurement and at the end of the
    cycle. *)
Theorem C3_threshold_selection (i : inputs) (s : state) :
  0 <= adc_switch i < 2 ^ 16 ->
  thresholds (select_thresholds (adc_switch i) s) = profile_of (adc_switch i)
  /\ thresholds (measure i s) = profile_of (adc_switch i)
  /\ thresholds (cycle i s) = profile_of (adc_switch i)
  /\ (profile_of (adc_switch i) = CMOS <-> adc_switch i < 768)
  /\ (profile_of (adc_switch i) = TTL <-> 768 <= adc_switch i).
Proof.
  intros Hv. unfold thresholds, profile_of.
  rewrite !(classification_kept _ i s) by (cbn [In]; auto).
  rewrite measure_valLow, measure_valHigh.
  rewrite (wrap_small 16 (adc_switch i)) by exact Hv.
  assert (Hp : forall b : bool,
             (if b then CMOS_LOW else TTL_LOW, if b then CMOS_HIGH else TTL_HIGH)
             = if b then CMOS else TTL) by (intros []; reflexivity).
  split; [|split; [apply Hp|split; [apply Hp|]]].
  - unfold select_thresholds. exec.
    + destruct (wrap 16 (adc_switch i) <? 768) eqn:E; [discriminate|].
      rewrite wrap_small in E by exact Hv. now rewrite E.
    + destruct (wrap 16 (adc_switch i) <? 768) eqn:E; [|discriminate].
      rewrite wrap_small in E by exact Hv. now rewrite E.
  - destruct (adc_switch i <? 768) eqn:E.
    + apply Z.ltb_lt in E. split; split; intros H; try assumption; try reflexivity.
      * now elim TTL_neq_CMOS.
      * lia.
    + apply Z.ltb_ge in E. split; split; intros H; try assumption; try reflexivity.
      * now elim TTL_neq_CMOS.
      * lia.
Qed.

Lemma C3_threshold_selection_witness :
  thresholds (cycle (mkInputs 900 0 8 8 500) (boot all_zero)) = TTL
  /\ thresholds (cycle (mkInputs 300 0 8 8 500) (boot all_zero)) = CMOS.
Proof.
  split.
  - refine (proj1 (proj2 (proj2 (C3_threshold_selection (mkInputs 900 0 8 8 500) _ _)))).
    simpl. lia.
  - refine (proj1 (proj2 (proj2 (C3_threshold_selection (mkInputs 300 0 8 8 500) _ _)))).
    simpl. lia.
Defined.

(** ** Level classification *)

(** C2.  For every probe reading [r] (a value of the 16-bit ADC
    register) and whichever profile the switch selects, isHigh is
    [r > valHigh] and isLow is [r < valLow] as C truth values, the pair
    in force is one of TTL (164, 409) and CMOS (307, 716), and isHigh
    and isLow are never both set.  This holds right after the
    classification and still at the end of the cycle. *)
Theorem C2_classification (i : inputs) (s : state) :
  0 <= adc_probe i < 2 ^ 16 ->
  classified (adc_probe i) (measure i s)
  /\ classified (adc_probe i) (cycle i s).
Proof.
  intros Hr.
  assert (Hm : classified (adc_probe i) (measure i s)).
  { unfold classified, thresholds.
    rewrite measure_isHigh, measure_isLow, measure_valHigh, measure_valLow.
    rewrite (wrap_small 16 (adc_probe i)) by exact Hr.
    repeat split.
    - destruct (wrap 16 (adc_switch i) <? 768); [right | left]; reflexivity.
    - intros [Hh Hl].
      destruct (wrap 16 (adc_switch i) <? 768);
        unfold CMOS_HIGH, CMOS_LOW, TTL_HIGH, TTL_LOW in *;
        destruct (adc_probe i >? _) eqn:E1; try (now elim Hh);
        destruct (adc_probe i <? _) eqn:E2; try (now elim Hl);
        rewrite Z.gtb_ltb in E1; apply Z.ltb_lt in E1, E2; lia. }
  split; [exact Hm|].
  unfold classified, thresholds in *.
  rewrite !(classification_kept _ i s) by (cbn [In]; auto 6).
  exact Hm.
Qed.

Lemma C2_classification_witness :
  classified 500 (cycle (mkInputs 900 0 8 8 500)
                        (boot all_zero)).
Proof.
  refine (proj2 (C2_classification (mkInputs 900 0 8 8 500) _ _)).
  simpl. lia.
Defined.

(** ** Floating check *)

Lemma land_bit3 (x : Z) : Z.land x 8 = if pin 3 x then 8 else 0.
Proof.
  unfold pin. apply Z.bits_inj'. intros n Hn.
  rewrite Z.land_spec. change 8 with (2 ^ 3) at 1.
  rewrite Z.pow2_bits_eqb by lia.
  destruct (Z.eqb_spec 3 n) as [<-|Hne].
  - rewrite andb_true_r. destruct (Z.testbit x 3); reflexivity.
  - rewrite andb_false_r. destruct (Z.testbit x 3); [|now rewrite Z.bits_0].
    change 8 with (2 ^ 3). rewrite Z.pow2_bits_eqb by lia.
    symmetry. now apply Z.eqb_neq.
Qed.

(** The flag is 8 when PB3 read 1 under pull-up and 0 under pull-down,
    and 0 otherwise. *)
Lemma measure_isFloating_pins (i : inputs) (s : state) :
  measure i s isFloating =
  if pin 3 (pinb_up i) && negb (pin 3 (pinb_down i)) then 8 else 0.
Proof.
  rewrite measure_isFloating, land_bit3.
  rewrite pin_wrap, pin_land, pin_wrap by lia.
  unfold pin at 2. rewrite Z.lnot_spec by lia. fold (pin 3 (pinb_down i)).
  destruct (pin 3 (pinb_up i) && negb (pin 3 (pinb_down i))); reflexivity.
Qed.

(** C8.  The floating flag computed by the check depends on the two
    reads of PINB alone.  Running the check twice in a row on the same
    two reads gives the same flag as running it once; and two
    consecutive cycles whose reads of PINB agree compute the same flag,
    whatever the other inputs of the two cycles are. *)
Theorem C8_floating_check_idempotent
    (pu pd : Z) (s : state) (v1 v2 r1 r2 : Z) (n1 n2 : nat) :
  check_floating pu pd (check_floating pu pd s) isFloating
  = check_floating pu pd s isFloating
  /\ measure (mkInputs v2 n2 pu pd r2) (cycle (mkInputs v1 n1 pu pd r1) s)
       isFloating
     = measure (mkInputs v1 n1 pu pd r1) s isFloating.
Proof.
  split.
  - unfold check_floating. exec. reflexivity.
  - now rewrite !measure_isFloating.
Qed.

(** ** Output encoding *)

(** Pins of a register value built from masks: the masks are
    evaluated, the pins of the old value remain. *)
Ltac pins :=
  unfold FL_on, LO_on, HI_on, OS_on;
  repeat first [ rewrite pin_wrap by lia | rewrite pin_lor | rewrite pin_land ];
  repeat match goal with
         | |- context [pin ?n ?c] =>
             ground_Z n; ground_Z c;
             let r := eval vm_compute in (pin n c) in
             change (pin n c) with r
         end;
  rewrite ?andb_true_r, ?andb_false_r, ?orb_true_r, ?orb_false_r;
  cbn [andb orb negb].

(** C1.  Whenever the floating flag is set when the LEDs are set, PORTB
    ends with PB2 = 1, PB1 = 0 and PB0 = 0: the FL pattern is shown and
    none of the HI, LO and OS patterns, whatever isHigh, isLow and
    isOscillating hold; the oscillation counter is left alone.  The
    state [s] is any state at the output encoding, in particular
    [sense i s0] of a cycle. *)
Theorem C1_floating_shows_only_FL (s : state) :
  s isFloating <> 0 ->
  pin 2 (set_leds s PORTB) = true
  /\ pin 1 (set_leds s PORTB) = false
  /\ pin 0 (set_leds s PORTB) = false
  /\ FL_on (set_leds s PORTB) = true
  /\ HI_on (set_leds s PORTB) = false
  /\ LO_on (set_leds s PORTB) = false
  /\ OS_on (set_leds s PORTB) = false
  /\ set_leds s isOscillating = s isOscillating.
Proof.
  intros Hf. apply Z.eqb_neq in Hf. cells.
  unfold_loop. exec; try congruence.
  repeat split; pins; reflexivity.
Qed.

Lemma C1_floating_shows_only_FL_witness :
  sense (mkInputs 900 0 8 0 500) (boot all_zero)
    isHigh = 1
  /\ FL_on (cycle (mkInputs 900 0 8 0 500)
                  (boot all_zero) PORTB) = true
  /\ HI_on (cycle (mkInputs 900 0 8 0 500)
                  (boot all_zero) PORTB) = false.
Proof.
  split; [reflexivity|].
  assert (H : sense (mkInputs 900 0 8 0 500)
                (boot all_zero) isFloating <> 0)
    by (vm_compute; discriminate).
  split.
  - exact (proj1 (proj2 (proj2 (proj2 (C1_floating_shows_only_FL _ H))))).
  - exact (proj1 (proj2 (proj2 (proj2 (proj2 (C1_floating_shows_only_FL _ H)))))).
Defined.

(** ** Oscillation overrides floating *)

Lemma override_spec (d : state) :
  d isOscillating <> 0 ->
  override_floating d isFloating = 0
  /\ override_floating d isOscillating = d isOscillating.
Proof.
  intros H. cells. unfold_loop. exec; eqb_props; try lia; auto.
Qed.

Lemma set_leds_oscillating (s : state) :
  s isFloating = 0 -> s isOscillating <> 0 ->
  pin 0 (set_leds s PORTB) = true /\ pin 2 (set_leds s PORTB) = false.
Proof.
  intros Hf Ho. cells. unfold_loop. exec; eqb_props; try lia;
    split; pins; reflexivity.
Qed.

(** C4.  If isOscillating is nonzero where it is tested after the slow
    oscillation check, the floating flag is 0 when the LEDs are set, and
    the cycle ends with PB2 = 0 and PB0 = 1: the OS pattern, not the FL
    pattern. *)
Theorem C4_oscillating_never_floating (i : inputs) (s : state) :
  detect i s isOscillating <> 0 ->
  sense i s isFloating = 0
  /\ FL_on (cycle i s PORTB) = false
  /\ OS_on (cycle i s PORTB) = true.
Proof.
  intros Ho. destruct (override_spec (detect i s) Ho) as [Hf Hc].
  rewrite sense_unfold. split; [exact Hf|].
  change (cycle i s) with (set_leds (override_floating (detect i s))).
  destruct (set_leds_oscillating (override_floating (detect i s)) Hf) as [H0 H2].
  { now rewrite Hc. }
  unfold FL_on, OS_on. rewrite H0, H2. split; reflexivity.
Qed.

Lemma C4_oscillating_never_floating_witness :
  FL_on (cycle (mkInputs 900 1 8 0 500)
               (boot all_zero) PORTB) = false.
Proof.
  refine (proj1 (proj2 (C4_oscillating_never_floating
                          (mkInputs 900 1 8 0 500) _ _))).
  vm_compute. discriminate.
Defined.

(** A count that is running at the top of the loop is still running
    where the override tests it. *)
Lemma detect_keeps_running (i : inputs) (s : state) :
  s isOscillating <> 0 -> detect i s isOscillating <> 0.
Proof.
  intros H. rewrite detect_unfold.
  assert (Hr : preserves isOscillating remember) by frame.
  rewrite Hr. unfold check_slow, ifnz.
  destruct (level_changed (measure i s) =? 0).
  - unfold skip. rewrite measure_isOscillating.
    destruct (edges i =? 0)%nat; [exact H | discriminate].
  - unfold assign. rewrite upd_same. discriminate.
Qed.

(** ** Layering OS over LO and HI *)

(** C7, as stated, fails: with isHigh set and the count running, HI puts
    [0b101] on the LED pins, and the OS statements leave [0b001].  PB2,
    which HI had just set, is cleared; the HI pattern is not kept. *)
Lemma C7_HI_pattern_not_kept :
  high_and_oscillating isFloating = 0
  /\ high_and_oscillating isOscillating = 50
  /\ high_and_oscillating isHigh = 1
  /\ leds (set_LO_HI (leds_off high_and_oscillating) PORTB) = 5
  /\ leds (set_OS (set_LO_HI (leds_off high_and_oscillating)) PORTB) = 1
  /\ set_leds high_and_oscillating
     = set_OS (set_LO_HI (leds_off high_and_oscillating))
  /\ pin 2 (set_LO_HI (leds_off high_and_oscillating) PORTB) = true
  /\ pin 2 (set_leds high_and_oscillating PORTB) = false
  /\ HI_on (set_LO_HI (leds_off high_and_oscillating) PORTB) = true
  /\ HI_on (set_leds high_and_oscillating PORTB) = false.
Proof. vm_compute. repeat split. Qed.

(** C7, amended.  In every non-floating cycle with the count running
    (a [uint8_t] above 0), setting the LEDs is LO/HI followed by the OS
    statements; these clear PB2 and set PB0 and leave every other bit
    of PORTB as LO/HI left it.  So PB1, the LO bit, is kept, PB0 of HI
    is kept, PB2 of HI is cleared, and the OS pattern is shown.  The
    count is then lower by exactly 1. *)
Theorem C7_OS_layer (s : state) :
  s isFloating = 0 ->
  0 < s isOscillating < 2 ^ 8 ->
  set_leds s = set_OS (set_LO_HI (leds_off s))
  /\ pin 0 (set_leds s PORTB) = true
  /\ pin 2 (set_leds s PORTB) = false
  /\ (forall n, 0 <= n < 8 -> n <> 0 -> n <> 2 ->
      pin n (set_leds s PORTB) = pin n (set_LO_HI (leds_off s) PORTB))
  /\ pin 1 (set_leds s PORTB) = negb (s isLow =? 0)
  /\ OS_on (set_leds s PORTB) = true
  /\ set_leds s isOscillating = s isOscillating - 1.
Proof.
  intros Hf Ho.
  assert (Hw : wrap 8 (s isOscillating - 1) = s isOscillating - 1)
    by (apply wrap_small; lia).
  assert (Hn : forall n, 0 <= n < 8 -> n <> 0 -> n <> 2 ->
               n = 1 \/ n = 3 \/ n = 4 \/ n = 5 \/ n = 6 \/ n = 7) by lia.
  destruct Ho as [Ho _]. cells.
  unfold_loop. exec; eqb_props; try lia;
    (split; [reflexivity|]);
    (split; [pins; reflexivity|]);
    (split; [pins; reflexivity|]);
    (split; [intros n H1 H2 H3;
             destruct (Hn n H1 H2 H3) as [->|[->|[->|[->|[->| ->]]]]];
             pins; reflexivity|]);
    (split; [pins; try reflexivity|]);
    (split; [pins; reflexivity | exact Hw]).
Qed.

Lemma C7_OS_layer_witness :
  set_leds high_and_oscillating isOscillating
  = high_and_oscillating isOscillating - 1.
Proof.
  refine (proj2 (proj2 (proj2 (proj2 (proj2 (proj2
            (C7_OS_layer high_and_oscillating _ _))))))).
  - reflexivity.
  - vm_compute. split; reflexivity.
Defined.

(** ** The oscillation counter *)

Lemma check_slow_counter (d : state) :
  check_slow d isOscillating =
  if level_changed d =? 0 then d isOscillating else OSC_DUR.
Proof. unfold check_slow, ifnz. destruct (level_changed d =? 0); reflexivity. Qed.

Lemma detect_counter (i : inputs) (s : state) :
  detect i s isOscillating =
  if level_changed (measure i s) =? 0
  then (if (edges i =? 0)%nat then s isOscillating else OSC_DUR)
  else OSC_DUR.
Proof.
  rewrite detect_unfold.
  assert (Hr : preserves isOscillating remember) by frame.
  now rewrite Hr, check_slow_counter, measure_isOscillating.
Qed.

(** The only decrement: not floating and the count running. *)
Lemma set_leds_counter (s : state) :
  set_leds s isOscillating =
  if s isFloating =? 0
  then (if s isOscillating =? 0 then 0 else wrap 8 (s isOscillating - 1))
  else s isOscillating.
Proof.
  unfold_loop. exec;
    repeat match goal with
           | H : (?a =? 0) = _ |- context [?a =? 0] => rewrite H
           end; eqb_props; congruence.
Qed.

Lemma cycle_counter (i : inputs) (s : state) :
  cycle i s isOscillating =
  if detect i s isOscillating =? 0
  then 0
  else wrap 8 (detect i s isOscillating - 1).
Proof.
  change (cycle i s) with (set_leds (override_floating (detect i s))).
  rewrite set_leds_counter.
  assert (Hc : preserves isOscillating override_floating) by frame.
  rewrite (Hc (detect i s)).
  destruct (detect i s isOscillating =? 0) eqn:E.
  - apply Z.eqb_eq in E.
    destruct (override_floating (detect i s) isFloating =? 0); congruence.
  - apply Z.eqb_neq in E. destruct (override_spec _ E) as [-> _]. reflexivity.
Qed.

Lemma counter_in_range_step (i : inputs) (s : state) :
  counter_in_range s ->
  counter_in_range (measure i s)
  /\ counter_in_range (detect i s)
  /\ counter_in_range (sense i s)
  /\ counter_in_range (cycle i s).
Proof.
  unfold counter_in_range, OSC_DUR. intros H.
  assert (Hm : 0 <= measure i s isOscillating <= 50).
  { rewrite measure_isOscillating. unfold OSC_DUR.
    destruct (edges i =? 0)%nat; lia. }
  assert (Hd : 0 <= detect i s isOscillating <= 50).
  { rewrite detect_counter. unfold OSC_DUR.
    destruct (level_changed (measure i s) =? 0);
      destruct (edges i =? 0)%nat; lia. }
  assert (Ho : preserves isOscillating override_floating) by frame.
  repeat split; try lia.
  - rewrite sense_unfold, Ho. lia.
  - rewrite sense_unfold, Ho. lia.
  - rewrite cycle_counter. destruct (detect i s isOscillating =? 0) eqn:E; [lia|].
    apply Z.eqb_neq in E. rewrite wrap_small; lia.
  - rewrite cycle_counter. destruct (detect i s isOscillating =? 0) eqn:E; [lia|].
    apply Z.eqb_neq in E. rewrite wrap_small; lia.
Qed.

Lemma counter_in_range_run (ins : list inputs) (s : state) :
  counter_in_range s -> counter_in_range (run ins s).
Proof.
  revert s. induction ins as [|i ins IH]; intros s H; [exact H|].
  cbn [run]. unfold seq. apply IH. now apply counter_in_range_step.
Qed.

(** C9.  From power-on, whatever the uninitialised locals hold and
    whatever the inputs of the cycles are, isOscillating is between 0
    and OSC_DUR at the top of the loop and, in the next cycle, after the
    interrupt window, after the slow oscillation check, when the LEDs
    are set and after the decrement. *)
Theorem C9_counter_range (garbage : state) (ins : list inputs) (i : inputs) :
  counter_in_range (run ins (boot garbage))
  /\ counter_in_range (measure i (run ins (boot garbage)))
  /\ counter_in_range (detect i (run ins (boot garbage)))
  /\ counter_in_range (sense i (run ins (boot garbage)))
  /\ counter_in_range (cycle i (run ins (boot garbage))).
Proof.
  assert (H : counter_in_range (run ins (boot garbage))).
  { apply counter_in_range_run. unfold counter_in_range, OSC_DUR.
    unfold boot, setup, power_on. exec. lia. }
  split; [exact H | now apply counter_in_range_step].
Qed.

(** ** The first cycle and the uninitialised locals *)

(** C10.  lastHigh and lastLow are read by the slow oscillation check
    of the first cycle and hold what they held at power-on.  There are
    two power-on contents that differ in lastLow only and an input
    without any pin change for which the first cycle ends with a
    different count and different LED pins: OS in one run, HI in the
    other. *)
Theorem C10_first_cycle_reads_garbage :
  exists (g1 g2 : state) (i : inputs),
    (forall x, x <> lastHigh -> x <> lastLow -> g1 x = g2 x)
    /\ edges i = 0%nat
    /\ boot g1 lastLow <> boot g2 lastLow
    /\ cycle i (boot g1) isOscillating <> cycle i (boot g2) isOscillating
    /\ cycle i (boot g1) PORTB <> cycle i (boot g2) PORTB
    /\ OS_on (cycle i (boot g1) PORTB) = false
    /\ OS_on (cycle i (boot g2) PORTB) = true
    /\ HI_on (cycle i (boot g1) PORTB) = true
    /\ HI_on (cycle i (boot g2) PORTB) = false.
Proof.
  exists all_zero, (upd all_zero lastLow 1), (mkInputs 900 0 8 8 500).
  split.
  { intros x H1 H2. destruct x; try reflexivity; congruence. }
  vm_compute. repeat split; discriminate.
Qed.

(** ** Slow oscillation *)

Lemma level_changed_spec (d : state) :
  level_changed d <> 0 <->
  d isFloating = 0
  /\ ((d isHigh <> 0 /\ d lastLow <> 0) \/ (d isLow <> 0 /\ d lastHigh <> 0)).
Proof.
  unfold level_changed, c_and, c_or, c_not, rd, c_bool.
  destruct (d isFloating =? 0) eqn:Ef, (d isHigh =? 0) eqn:Eh,
           (d lastLow =? 0) eqn:El, (d isLow =? 0) eqn:Ew,
           (d lastHigh =? 0) eqn:Ep;
    cbn [negb Z.eqb]; eqb_props; split; intros H;
    try discriminate; try (now elim H); try tauto; try (split; tauto).
Qed.

(** After a cycle lastHigh/lastLow hold the classification of that
    cycle. *)
Lemma cycle_last (i : inputs) (s : state) :
  cycle i s lastHigh = cycle i s isHigh
  /\ cycle i s lastLow = cycle i s isLow.
Proof.
  rewrite (classification_kept isHigh i s), (classification_kept isLow i s)
    by (cbn [In]; auto 6).
  rewrite cycle_unfold.
  assert (H1 : preserves lastHigh set_leds) by frame.
  assert (H2 : preserves lastHigh override_floating) by frame.
  assert (H3 : preserves lastLow set_leds) by frame.
  assert (H4 : preserves lastLow override_floating) by frame.
  rewrite (H1 (override_floating _)), (H2 (remember _)).
  rewrite (H3 (override_floating _)), (H4 (remember _)).
  rewrite measure_isHigh, measure_isLow.
  generalize (measure_isHigh i s), (measure_isLow i s).
  generalize (measure i s). intros m Hh Hl. cells.
  unfold_loop. exec; rewrite ?Hh, ?Hl, ?wrap8_c_bool; split; reflexivity.
Qed.

Lemma cycle_OS_on (i : inputs) (s : state) :
  OS_on (cycle i s PORTB) = negb (detect i s isOscillating =? 0).
Proof.
  change (cycle i s) with (set_leds (override_floating (detect i s))).
  destruct (detect i s isOscillating =? 0) eqn:E.
  - apply Z.eqb_eq in E.
    assert (Hc : preserves isOscillating override_floating) by frame.
    rewrite <- (Hc (detect i s)) in E.
    generalize dependent (override_floating (detect i s)). intros o Ho. cells.
    unfold_loop. exec; eqb_props; try congruence; pins; reflexivity.
  - apply Z.eqb_neq in E. destruct (override_spec _ E) as [Hf Hc].
    rewrite <- Hc in E.
    destruct (set_leds_oscillating _ Hf E) as [H0 H2].
    unfold OS_on. now rewrite H0, H2.
Qed.

(** C6.  Take two consecutive cycles.  If the first classified the
    line LOW and the second classifies it HIGH, or the first HIGH and
    the second LOW, and the floating flag of the second cycle is 0 at
    the slow oscillation check, then that check sets isOscillating to
    OSC_DUR.  lastHigh/lastLow, which held the classification of the
    first cycle, then take the classification of the second.  The
    second cycle shows OS and ends with the count at OSC_DUR - 1. *)
Theorem C6_slow_oscillation (i1 i2 : inputs) (s : state) :
  (cycle i1 s isLow <> 0 /\ measure i2 (cycle i1 s) isHigh <> 0)
  \/ (cycle i1 s isHigh <> 0 /\ measure i2 (cycle i1 s) isLow <> 0) ->
  measure i2 (cycle i1 s) isFloating = 0 ->
  check_slow (measure i2 (cycle i1 s)) isOscillating = OSC_DUR
  /\ detect i2 (cycle i1 s) isOscillating = OSC_DUR
  /\ measure i2 (cycle i1 s) lastHigh = cycle i1 s isHigh
  /\ measure i2 (cycle i1 s) lastLow = cycle i1 s isLow
  /\ cycle i2 (cycle i1 s) lastHigh = measure i2 (cycle i1 s) isHigh
  /\ cycle i2 (cycle i1 s) lastLow = measure i2 (cycle i1 s) isLow
  /\ cycle i2 (cycle i1 s) isOscillating = OSC_DUR - 1.
Proof.
  intros Hchange Hfloat.
  destruct (cycle_last i1 s) as [Hlh Hll].
  destruct (cycle_last i2 (cycle i1 s)) as [Hlh2 Hll2].
  assert (Hlc : level_changed (measure i2 (cycle i1 s)) <> 0).
  { apply level_changed_spec. split; [exact Hfloat|].
    rewrite measure_lastHigh, measure_lastLow, Hlh, Hll. tauto. }
  apply Z.eqb_neq in Hlc.
  assert (Hd : detect i2 (cycle i1 s) isOscillating = OSC_DUR)
    by (rewrite detect_counter, Hlc; reflexivity).
  repeat split.
  - rewrite check_slow_counter, Hlc. reflexivity.
  - exact Hd.
  - rewrite measure_lastHigh. exact Hlh.
  - rewrite measure_lastLow. exact Hll.
  - rewrite Hlh2. apply classification_kept. cbn [In]. auto 6.
  - rewrite Hll2. apply classification_kept. cbn [In]. auto 6.
  - rewrite cycle_counter, Hd. reflexivity.
Qed.

Lemma C6_slow_oscillation_witness :
  cycle (mkInputs 900 0 8 8 500) (cycle (mkInputs 900 0 8 8 100) (boot all_zero))
    isOscillating = OSC_DUR - 1.
Proof.
  refine (proj2 (proj2 (proj2 (proj2 (proj2 (proj2
            (C6_slow_oscillation (mkInputs 900 0 8 8 100)
                                 (mkInputs 900 0 8 8 500) (boot all_zero) _ _))))))).
  - vm_compute. left. split; discriminate.
  - reflexivity.
Defined.

(** ** Transient oscillation and the decay of the count *)

Lemma quiet_cycle (j : inputs) (s : state) :
  retriggers j s = false ->
  0 <= s isOscillating < 2 ^ 8 ->
  cycle j s isOscillating = Z.max 0 (s isOscillating - 1)
  /\ OS_on (cycle j s PORTB) = (1 <=? s isOscillating).
Proof.
  unfold retriggers. intros Hq Hr.
  apply orb_false_elim in Hq. destruct Hq as [He Hl].
  apply negb_false_iff in He, Hl.
  assert (Hd : detect j s isOscillating = s isOscillating)
    by (now rewrite detect_counter, Hl, He).
  rewrite cycle_counter, cycle_OS_on, Hd.
  destruct (s isOscillating =? 0) eqn:E.
  - apply Z.eqb_eq in E. rewrite E. split; reflexivity.
  - apply Z.eqb_neq in E. rewrite wrap_small by lia. split; [lia|].
    cbn [negb]. symmetry. apply Z.leb_le. lia.
Qed.

Lemma quiet_decay (js : list inputs) :
  forall (s : state) (k : nat),
    quiet s js ->
    0 <= s isOscillating < 2 ^ 8 ->
    (1 <= k <= length js)%nat ->
    run (firstn k js) s isOscillating = Z.max 0 (s isOscillating - Z.of_nat k)
    /\ OS_on (run (firstn k js) s PORTB) = (Z.of_nat k <=? s isOscillating).
Proof.
  induction js as [|j js IH]; intros s k Hq Hr Hk; cbn [length] in Hk; [lia|].
  destruct Hq as [Hj Hq].
  destruct (quiet_cycle j s Hj Hr) as [Hc Ho].
  destruct k as [|k]; [lia|]. cbn [firstn run]. unfold seq.
  destruct k as [|k].
  - cbn [firstn run]. unfold skip. rewrite Hc, Ho. split; [f_equal; lia | reflexivity].
  - destruct (IH (cycle j s) (S k) Hq) as [Hc' Ho']; [rewrite Hc; lia | lia |].
    rewrite Hc', Ho', Hc. split; [lia|].
    destruct (Z.leb_spec (Z.of_nat (S k)) (Z.max 0 (s isOscillating - 1)));
      destruct (Z.leb_spec (Z.of_nat (S (S k))) (s isOscillating)); lia || reflexivity.
Qed.

(** C5, as stated, fails by one.  After the cycle with the pin change
    the count is already 49, not OSC_DUR = 50, because the same cycle
    shows OS and decrements.  With no re-trigger, OS is shown in the 49
    cycles that follow and no longer in the 50th. *)
Lemma C5_decay_is_one_short :
  quiet (cycle edge_cycle (boot all_zero)) (repeat still_cycle 50)
  /\ cycle edge_cycle (boot all_zero) isOscillating = 49
  /\ cycle edge_cycle (boot all_zero) isOscillating <> OSC_DUR
  /\ OS_on (cycle edge_cycle (boot all_zero) PORTB) = true
  /\ OS_on (run (repeat still_cycle 49) (cycle edge_cycle (boot all_zero)) PORTB)
     = true
  /\ run (repeat still_cycle 49) (cycle edge_cycle (boot all_zero)) isOscillating
     = 0
  /\ OS_on (run (repeat still_cycle 50) (cycle edge_cycle (boot all_zero)) PORTB)
     = false.
Proof. vm_compute. repeat split; discriminate. Qed.

(** C5, amended.  If the interrupt runs during the window of a cycle,
    isOscillating is OSC_DUR = 50 when the window closes, whatever it
    was before, and still where the LEDs are set.  That cycle shows OS
    and ends with the count at 49.  In the cycles that follow, as long
    as none re-triggers, the count goes down by exactly one per cycle
    until it is 0, and OS is shown in the first 49 of them and in none
    after: 50 consecutive cycles with the one of the pin change. *)
Theorem C5_transient_decay (i : inputs) (s : state) (js : list inputs) :
  (0 < edges i)%nat ->
  quiet (cycle i s) js ->
  check_transient (edges i) (select_thresholds (adc_switch i) s) isOscillating
  = OSC_DUR
  /\ sense i s isOscillating = OSC_DUR
  /\ OS_on (cycle i s PORTB) = true
  /\ cycle i s isOscillating = OSC_DUR - 1
  /\ (forall k : nat, (1 <= k <= length js)%nat ->
      run (firstn k js) (cycle i s) isOscillating
      = Z.max 0 (OSC_DUR - 1 - Z.of_nat k)
      /\ OS_on (run (firstn k js) (cycle i s) PORTB) = (Z.of_nat k <? OSC_DUR)).
Proof.
  intros He Hq.
  assert (Hn : (edges i =? 0)%nat = false) by (apply Nat.eqb_neq; lia).
  assert (Hd : detect i s isOscillating = OSC_DUR).
  { rewrite detect_counter, Hn.
    destruct (level_changed (measure i s) =? 0); reflexivity. }
  assert (Hc : cycle i s isOscillating = OSC_DUR - 1)
    by (rewrite cycle_counter, Hd; reflexivity).
  assert (Ho : preserves isOscillating override_floating) by frame.
  split; [|split; [|split; [|split; [exact Hc|]]]].
  - unfold check_transient, select_thresholds, ISR_PCINT0. exec; congruence.
  - rewrite sense_unfold, (Ho (detect i s)). exact Hd.
  - rewrite cycle_OS_on, Hd. reflexivity.
  - intros k Hk.
    destruct (quiet_decay js (cycle i s) k Hq) as [H1 H2];
      [rewrite Hc; unfold OSC_DUR; lia | exact Hk |].
    rewrite H1, H2, Hc. split; [reflexivity|]. unfold OSC_DUR.
    destruct (Z.leb_spec (Z.of_nat k) (50 - 1));
      destruct (Z.ltb_spec (Z.of_nat k) 50); lia || reflexivity.
Qed.

Lemma C5_transient_decay_witness :
  OS_on (run (firstn 49 (repeat still_cycle 50))
             (cycle edge_cycle (boot all_zero)) PORTB)
  = (Z.of_nat 49 <? OSC_DUR)
  /\ OS_on (run (firstn 50 (repeat still_cycle 50))
                (cycle edge_cycle (boot all_zero)) PORTB)
     = (Z.of_nat 50 <? OSC_DUR).
Proof.
  assert (He : (0 < edges edge_cycle)%nat) by (simpl; lia).
  assert (Hq : quiet (cycle edge_cycle (boot all_zero)) (repeat still_cycle 50))
    by (vm_compute; repeat split).
  split.
  - refine (proj2 (proj2 (proj2 (proj2 (proj2
       (C5_transient_decay edge_cycle (boot all_zero) _ He Hq)))) 49%nat _)).
    simpl. lia.
  - refine (proj2 (proj2 (proj2 (proj2 (proj2
       (C5_transient_decay edge_cycle (boot all_zero) _ He Hq)))) 50%nat _)).
    simpl. lia.
Defined.

(** * Further properties of the loop *)

(** ** The pull pin and the interrupt mask *)

Lemma byte_pin_cases (n : Z) :
  0 <= n < 8 ->
  n = 0 \/ n = 1 \/ n = 2 \/ n = 3 \/ n = 4 \/ n = 5 \/ n = 6 \/ n = 7.
Proof. lia. Qed.

Ltac each_pin n H :=
  destruct (byte_pin_cases n H) as [->|[->|[->|[->|[->|[->|[->| ->]]]]]]].

(** Setting the LEDs leaves PB3..PB7 alone. *)
Lemma set_leds_upper (s : state) (n : Z) :
  3 <= n < 8 -> pin n (set_leds s PORTB) = pin n (s PORTB).
Proof.
  intros Hn. assert (H8 : 0 <= n < 8) by lia.
  unfold_loop. exec; each_pin n H8; try lia; pins; reflexivity.
Qed.

(** X1.  In every cycle, from any state, the pull pin PB4 is an output
    driven high when the interrupt window closes, and it is an input
    again, with its PORTB bit cleared, before the probe voltage is
    converted and still at the end of the cycle.  PCMSK is 0 from the
    end of the window on.  No other bit of DDRB is changed by the
    cycle. *)
Theorem X1_pull_pin_released (i : inputs) (s : state) :
  pin 4 (check_transient (edges i) (select_thresholds (adc_switch i) s) DDRB)
  = true
  /\ pin 4 (check_transient (edges i) (select_thresholds (adc_switch i) s) PORTB)
     = true
  /\ check_transient (edges i) (select_thresholds (adc_switch i) s) PCMSK = 0
  /\ pin 4 (check_floating (pinb_up i) (pinb_down i)
              (check_transient (edges i) (select_thresholds (adc_switch i) s))
              DDRB) = false
  /\ pin 4 (check_floating (pinb_up i) (pinb_down i)
              (check_transient (edges i) (select_thresholds (adc_switch i) s))
              PORTB) = false
  /\ pin 4 (cycle i s DDRB) = false
  /\ pin 4 (cycle i s PORTB) = false
  /\ cycle i s PCMSK = 0
  /\ (forall n, 0 <= n < 8 -> n <> 4 -> pin n (cycle i s DDRB) = pin n (s DDRB)).
Proof.
  assert (Hd : cycle i s DDRB = measure i s DDRB).
  { rewrite cycle_unfold.
    assert (H1 : preserves DDRB set_leds) by frame.
    assert (H2 : preserves DDRB override_floating) by frame.
    assert (H3 : preserves DDRB remember) by frame.
    assert (H4 : preserves DDRB check_slow) by frame.
    now rewrite (H1 (override_floating _)), (H2 (remember _)),
      (H3 (check_slow _)), (H4 (measure i s)). }
  assert (Hm : cycle i s PCMSK = measure i s PCMSK).
  { rewrite cycle_unfold.
    assert (H1 : preserves PCMSK set_leds) by frame.
    assert (H2 : preserves PCMSK override_floating) by frame.
    assert (H3 : preserves PCMSK remember) by frame.
    assert (H4 : preserves PCMSK check_slow) by frame.
    now rewrite (H1 (override_floating _)), (H2 (remember _)),
      (H3 (check_slow _)), (H4 (measure i s)). }
  assert (Hp : pin 4 (cycle i s PORTB) = pin 4 (measure i s PORTB)).
  { rewrite cycle_unfold, set_leds_upper by lia.
    assert (H2 : preserves PORTB override_floating) by frame.
    assert (H3 : preserves PORTB remember) by frame.
    assert (H4 : preserves PORTB check_slow) by frame.
    now rewrite (H2 (remember _)), (H3 (check_slow _)), (H4 (measure i s)). }
  rewrite Hd, Hm, Hp.
  split; [|split; [|split; [|split; [|split; [|split; [|split; [|split]]]]]]].
  - unfold_loop. exec; pins; reflexivity.
  - unfold_loop. exec; pins; reflexivity.
  - unfold_loop. exec; reflexivity.
  - unfold_loop. exec; pins; reflexivity.
  - unfold_loop. exec; pins; reflexivity.
  - unfold_loop. exec; pins; reflexivity.
  - unfold_loop. exec; pins; reflexivity.
  - unfold_loop. exec; reflexivity.
  - intros n Hn H4. unfold_loop.
    exec; each_pin n Hn; try lia; pins; reflexivity.
Qed.

(** ** The LED pins as a function of the flags *)

Lemma pin_small (p n : Z) : 0 <= p < 8 -> 3 <= n -> pin n p = false.
Proof.
  intros Hp Hn. unfold pin.
  destruct (Z.eq_dec p 0) as [->|Hz]; [apply Z.bits_0|].
  apply Z.bits_above_log2; [lia|].
  apply Z.log2_lt_pow2; [lia|].
  apply Z.lt_le_trans with (2 ^ 3); [lia|].
  apply Z.pow_le_mono_r; lia.
Qed.

Lemma leds_of_pins (p : Z) :
  leds p = (if pin 0 p then 1 else 0) + (if pin 1 p then 2 else 0)
           + (if pin 2 p then 4 else 0).
Proof.
  unfold leds. apply Z.bits_inj'. intros n Hn.
  rewrite Z.land_spec.
  assert (Hc : n = 0 \/ n = 1 \/ n = 2 \/ 3 <= n) by lia.
  fold (pin n p).
  destruct Hc as [->|[->|[->|H3]]].
  - destruct (pin 0 p), (pin 1 p), (pin 2 p); reflexivity.
  - destruct (pin 0 p), (pin 1 p), (pin 2 p); reflexivity.
  - destruct (pin 0 p), (pin 1 p), (pin 2 p); reflexivity.
  - change (Z.testbit 7 n) with (pin n 7).
    rewrite (pin_small 7 n) by lia. rewrite andb_false_r. symmetry.
    apply pin_small; [|exact H3].
    destruct (pin 0 p), (pin 1 p), (pin 2 p); simpl; lia.
Qed.

Lemma set_leds_table (s : state) :
  leds (set_leds s PORTB) =
  (if s isFloating =? 0
   then if s isOscillating =? 0
        then Z.lor (if s isLow =? 0 then 0 else 2)
                   (if s isHigh =? 0 then 0 else 5)
        else if s isLow =? 0 then 1 else 3
   else 4).
Proof.
  unfold_loop. exec;
    repeat match goal with
           | H : (?a =? 0) = _ |- context [?a =? 0] => rewrite H
           end; eqb_props; try congruence;
    rewrite leds_of_pins; pins; reflexivity.
Qed.

(** X2.  Setting the LEDs is a function of the four flags: with the
    floating flag set the LED pins PB2..PB0 read [0b100]; otherwise
    with the count running they read [0b011] when isLow is set and
    [0b001] when it is not, whatever isHigh is; otherwise they are the
    union of [0b010] for isLow and [0b101] for isHigh.  The pins do
    not depend on what PORTB held before, and PB3..PB7 are left as they
    were. *)
Theorem X2_led_pins_table (s : state) :
  leds (set_leds s PORTB) =
  (if s isFloating =? 0
   then if s isOscillating =? 0
        then Z.lor (if s isLow =? 0 then 0 else 2)
                   (if s isHigh =? 0 then 0 else 5)
        else if s isLow =? 0 then 1 else 3
   else 4)
  /\ (forall n, 3 <= n < 8 -> pin n (set_leds s PORTB) = pin n (s PORTB)).
Proof.
  split; [apply set_leds_table | intros n Hn; now apply set_leds_upper].
Qed.

(** ** The LED pins at the end of a cycle *)

Lemma override_isFloating (d : state) :
  override_floating d isFloating =
  if d isOscillating =? 0 then d isFloating else 0.
Proof.
  unfold_loop. exec;
    repeat match goal with
           | H : (?a =? 0) = _ |- context [?a =? 0] => rewrite H
           end; reflexivity.
Qed.

(** What reaches the setting of the LEDs, in terms of the measurement
    and of the count after the slow oscillation check. *)
Lemma sense_cells (i : inputs) (s : state) :
  sense i s isFloating
  = (if detect i s isOscillating =? 0 then measure i s isFloating else 0)
  /\ sense i s isOscillating = detect i s isOscillating
  /\ sense i s isLow = measure i s isLow
  /\ sense i s isHigh = measure i s isHigh
  /\ sense i s PORTB = measure i s PORTB.
Proof.
  rewrite sense_unfold, override_isFloating.
  assert (Ho : forall x, x <> isFloating -> preserves x override_floating)
    by (intros x Hx; destruct x; try (now elim Hx); frame).
  assert (Hr : forall x, x <> lastHigh -> x <> lastLow -> preserves x remember)
    by (intros x H1 H2; destruct x;
        try (now elim H1); try (now elim H2); frame).
  assert (Hc : forall x, x <> isOscillating -> preserves x check_slow)
    by (intros x Hx; destruct x; try (now elim Hx); frame).
  rewrite (Ho isOscillating), (Ho isLow), (Ho isHigh), (Ho PORTB)
    by discriminate.
  rewrite detect_unfold.
  rewrite (Hr isFloating), (Hr isLow), (Hr isHigh), (Hr PORTB) by discriminate.
  rewrite (Hc isFloating), (Hc isLow), (Hc isHigh), (Hc PORTB) by discriminate.
  repeat split.
Qed.

Lemma measure_exclusive (i : inputs) (s : state) :
  measure i s isLow = 0 \/ (measure i s isLow = 1 /\ measure i s isHigh = 0).
Proof.
  rewrite measure_isHigh, measure_isLow, measure_valHigh, measure_valLow.
  unfold CMOS_HIGH, CMOS_LOW, TTL_HIGH, TTL_LOW.
  destruct (wrap 16 (adc_switch i) <? 768);
    destruct (wrap 16 (adc_probe i) <? _) eqn:E1; auto;
    destruct (wrap 16 (adc_probe i) >? _) eqn:E2; auto;
    rewrite Z.gtb_ltb in E2; apply Z.ltb_lt in E1, E2; lia.
Qed.

Lemma cycle_leds (i : inputs) (s : state) :
  leds (cycle i s PORTB) =
  if detect i s isOscillating =? 0
  then if measure i s isFloating =? 0
       then if measure i s isLow =? 0
            then if measure i s isHigh =? 0 then 0 else 5
            else 2
       else 4
  else if measure i s isLow =? 0 then 1 else 3.
Proof.
  change (cycle i s) with (set_leds (sense i s)).
  rewrite set_leds_table.
  destruct (sense_cells i s) as (-> & -> & -> & -> & _).
  destruct (detect i s isOscillating =? 0); [|reflexivity].
  destruct (measure i s isFloating =? 0); [|reflexivity].
  destruct (measure_exclusive i s) as [-> | [-> ->]]; [|reflexivity].
  cbn [Z.eqb]. destruct (measure i s isHigh =? 0); reflexivity.
Qed.

(** X3.  The LED pins PB2..PB0 at the end of any cycle, from any
    state: [0b001] or, with isLow, [0b011] when the count is running
    after the slow oscillation check; otherwise [0b100] when the
    floating check found the line floating; otherwise [0b010] for LOW,
    [0b101] for HIGH and [0b000] for a reading between the thresholds.
    [0b110] and [0b111] never appear. *)
Theorem X3_cycle_led_pins (i : inputs) (s : state) :
  leds (cycle i s PORTB) =
  (if detect i s isOscillating =? 0
   then if measure i s isFloating =? 0
        then if measure i s isLow =? 0
             then if measure i s isHigh =? 0 then 0 else 5
             else 2
        else 4
   else if measure i s isLow =? 0 then 1 else 3)
  /\ 0 <= leds (cycle i s PORTB) <= 5.
Proof.
  split; [apply cycle_leds|]. rewrite cycle_leds.
  destruct (detect i s isOscillating =? 0), (measure i s isFloating =? 0),
           (measure i s isLow =? 0), (measure i s isHigh =? 0); lia.
Qed.

(** ** The registers at the top of the loop *)

Lemma small_cases (p : Z) :
  0 <= p < 8 ->
  p = 0 \/ p = 1 \/ p = 2 \/ p = 3 \/ p = 4 \/ p = 5 \/ p = 6 \/ p = 7.
Proof. lia. Qed.

Lemma measure_PORTB_small (i : inputs) (s : state) :
  0 <= s PORTB < 8 -> measure i s PORTB = s PORTB.
Proof.
  intros H. apply small_cases in H. cells.
  unfold_loop. exec;
    destruct H as [H|[H|[H|[H|[H|[H|[H|H]]]]]]]; rewrite H; reflexivity.
Qed.

Lemma set_leds_small (s : state) :
  0 <= s PORTB < 8 -> set_leds s PORTB = leds (set_leds s PORTB).
Proof.
  intros H. apply small_cases in H. cells.
  unfold_loop. exec;
    destruct H as [H|[H|[H|[H|[H|[H|[H|H]]]]]]]; rewrite H; reflexivity.
Qed.

Lemma measure_DDRB_idle (i : inputs) (s : state) :
  s DDRB = 7 -> measure i s DDRB = 7.
Proof. intros H. cells. unfold_loop. exec; rewrite H; reflexivity. Qed.

Lemma idle_step (i : inputs) (s : state) :
  s DDRB = 7 /\ s PCMSK = 0 /\ 0 <= s PORTB <= 5 ->
  cycle i s DDRB = 7 /\ cycle i s PCMSK = 0 /\ 0 <= cycle i s PORTB <= 5.
Proof.
  intros (Hd & _ & Hp).
  assert (Hf : forall x, x = DDRB \/ x = PCMSK -> cycle i s x = measure i s x).
  { intros x Hx. rewrite cycle_unfold.
    assert (H1 : preserves x set_leds) by (destruct Hx; subst; frame).
    assert (H2 : preserves x override_floating) by (destruct Hx; subst; frame).
    assert (H3 : preserves x remember) by (destruct Hx; subst; frame).
    assert (H4 : preserves x check_slow) by (destruct Hx; subst; frame).
    now rewrite (H1 (override_floating _)), (H2 (remember _)),
      (H3 (check_slow _)), (H4 (measure i s)). }
  rewrite (Hf DDRB), (Hf PCMSK) by auto.
  split; [now apply measure_DDRB_idle|].
  split; [unfold_loop; exec; reflexivity|].
  assert (Hs : 0 <= sense i s PORTB < 8).
  { destruct (sense_cells i s) as (_ & _ & _ & _ & ->).
    rewrite (measure_PORTB_small i s); lia. }
  assert (He : cycle i s PORTB = leds (cycle i s PORTB))
    by exact (set_leds_small (sense i s) Hs).
  rewrite He, (cycle_leds i s).
  destruct (detect i s isOscillating =? 0), (measure i s isFloating =? 0),
           (measure i s isLow =? 0), (measure i s isHigh =? 0); lia.
Qed.

(** X4.  From power-on, whatever the uninitialised locals hold and
    whatever the inputs are, every pass of the loop starts with
    DDRB = [0b00000111] (the three LED pins outputs, every other pin an
    input), with PCMSK = 0 (no pin change interrupt armed), and with
    PORTB at most [0b101]: no pull-up is left on an input pin, and the
    LED pins never read [0b110] or [0b111]. *)
Theorem X4_registers_at_loop_top (garbage : state) (ins : list inputs) :
  run ins (boot garbage) DDRB = 7
  /\ run ins (boot garbage) PCMSK = 0
  /\ 0 <= run ins (boot garbage) PORTB <= 5.
Proof.
  assert (H0 : boot garbage DDRB = 7 /\ boot garbage PCMSK = 0
               /\ 0 <= boot garbage PORTB <= 5).
  { unfold boot, setup, power_on. exec. repeat split; lia. }
  revert H0. generalize (boot garbage).
  induction ins as [|i ins IH]; intros s H; [exact H|].
  cbn [run]. unfold seq. apply IH. now apply idle_step.
Qed.

(** ** The floating check, the interrupt and what a cycle remembers *)

(** X5.  The floating flag left by the floating check is 8 when PB3
    read 1 with the line pulled up and 0 with the line pulled down, and
    0 in every other case.  No other bit of the two reads of PINB and
    nothing of the state before the check has any influence. *)
Theorem X5_floating_flag_by_pins (pu pd : Z) (s : state) :
  check_floating pu pd s isFloating =
  if pin 3 pu && negb (pin 3 pd) then 8 else 0.
Proof.
  unfold check_floating. exec. rewrite land_bit3.
  rewrite pin_wrap, pin_land, pin_wrap by lia.
  unfold pin at 2. rewrite Z.lnot_spec by lia. fold (pin 3 pd).
  destruct (pin 3 pu && negb (pin 3 pd)); reflexivity.
Qed.

(** X6.  What a cycle carries over from the previous one is PORTB,
    DDRB, isOscillating, lastHigh and lastLow and nothing else: two
    states that agree on these five cells are taken to the same state
    by a cycle on the same inputs.  valSwitch, valProbe, valHigh,
    valLow, isHigh, isLow, isFloating, ADMUX and PCMSK are written
    before they are read. *)
Theorem X6_cycle_memory (i : inputs) (s1 s2 : state) :
  s1 PORTB = s2 PORTB ->
  s1 DDRB = s2 DDRB ->
  s1 isOscillating = s2 isOscillating ->
  s1 lastHigh = s2 lastHigh ->
  s1 lastLow = s2 lastLow ->
  cycle i s1 = cycle i s2.
Proof.
  intros Hp Hd Ho Hh Hl. rewrite (cycle_unfold i s1), (cycle_unfold i s2).
  assert (Hm : measure i s1 = measure i s2);
    [|now rewrite Hm].
  cells. unfold_loop. exec; try congruence;
    rewrite ?Hp, ?Hd, ?Ho, ?Hh, ?Hl; reflexivity.
Qed.

Lemma X6_cycle_memory_witness :
  cycle still_cycle (mkState 0 7 1 2 0 3 4 5 6 7 8 0 1 9)
  = cycle still_cycle (mkState 0 7 0 0 0 0 0 0 0 0 0 0 1 0).
Proof.
  apply X6_cycle_memory; reflexivity.
Defined.

(** X7.  The pin change interrupt may run any number of times during
    the window: a cycle in which it ran [n + 1] times ends in the same
    state as a cycle in which it ran once. *)
Theorem X7_one_interrupt_is_enough
    (v pu pd r : Z) (n : nat) (s : state) :
  cycle (mkInputs v (S n) pu pd r) s = cycle (mkInputs v 1 pu pd r) s.
Proof.
  rewrite (cycle_unfold (mkInputs v (S n) pu pd r) s),
    (cycle_unfold (mkInputs v 1 pu pd r) s).
  assert (Hm : measure (mkInputs v (S n) pu pd r) s
               = measure (mkInputs v 1 pu pd r) s);
    [|now rewrite Hm].
  unfold measure, check_transient, seq.
  cbn [adc_switch edges pinb_up pinb_down adc_probe].
  now rewrite !interrupts_spec.
Qed.

(** X8.  While the floating check reports floating, the slow
    oscillation check does not arm the count, whatever the
    classifications of this and of the previous cycle are; the
    classification of the cycle is remembered all the same and is what
    the next cycle compares with. *)
Theorem X8_floating_blocks_slow_check (i : inputs) (s : state) :
  measure i s isFloating <> 0 ->
  check_slow (measure i s) isOscillating = measure i s isOscillating
  /\ detect i s isOscillating = measure i s isOscillating
  /\ detect i s lastHigh = measure i s isHigh
  /\ detect i s lastLow = measure i s isLow.
Proof.
  intros Hf.
  assert (Hl : (level_changed (measure i s) =? 0) = true).
  { apply Z.eqb_eq. destruct (Z.eq_dec (level_changed (measure i s)) 0) as [E|E];
      [exact E|]. apply level_changed_spec in E. tauto. }
  rewrite detect_counter, check_slow_counter, Hl, measure_isOscillating.
  split; [reflexivity|]. split; [reflexivity|].
  rewrite detect_unfold.
  generalize (measure_isHigh i s), (measure_isLow i s).
  generalize (measure i s). intros m Hh Hw. cells.
  unfold_loop. exec; rewrite ?Hh, ?Hw, ?wrap8_c_bool; split; reflexivity.
Qed.

Lemma X8_floating_blocks_slow_check_witness :
  detect (mkInputs 900 0 8 0 500)
         (cycle (mkInputs 900 0 8 8 100) (boot all_zero)) isOscillating = 0.
Proof.
  refine (proj1 (proj2 (X8_floating_blocks_slow_check
                          (mkInputs 900 0 8 0 500) _ _))).
  vm_compute. discriminate.
Defined.

(** ** How long OS stays on *)

Lemma loop_top_counter (ins : list inputs) (s : state) :
  0 <= s isOscillating <= OSC_DUR - 1 ->
  0 <= run ins s isOscillating <= OSC_DUR - 1.
Proof.
  revert s. induction ins as [|i ins IH]; intros s H; [exact H|].
  cbn [run]. unfold seq. apply IH.
  assert (Hr : counter_in_range s) by (unfold counter_in_range; lia).
  destruct (counter_in_range_step i s Hr) as (_ & Hd & _).
  unfold counter_in_range in Hd. rewrite cycle_counter.
  destruct (detect i s isOscillating =? 0) eqn:E; [unfold OSC_DUR; lia|].
  apply Z.eqb_neq in E. rewrite wrap_small; unfold OSC_DUR in *; lia.
Qed.

(** X9.  From power-on, after any cycles whatever, isOscillating is at
    most OSC_DUR - 1 = 49 at the top of the loop; and once 50 or more
    cycles in a row have passed without a pin change interrupt and
    without the slow oscillation check firing, the count is 0 and the
    OS pattern is off, whether or not the line floats meanwhile. *)
Theorem X9_OS_goes_dark (garbage : state) (ins js : list inputs) :
  quiet (run ins (boot garbage)) js ->
  (50 <= length js)%nat ->
  0 <= run ins (boot garbage) isOscillating <= OSC_DUR - 1
  /\ run js (run ins (boot garbage)) isOscillating = 0
  /\ OS_on (run js (run ins (boot garbage)) PORTB) = false.
Proof.
  intros Hq Hlen.
  assert (Ht : 0 <= run ins (boot garbage) isOscillating <= OSC_DUR - 1).
  { apply loop_top_counter. unfold boot, setup, power_on, OSC_DUR. exec. lia. }
  split; [exact Ht|]. unfold OSC_DUR in Ht.
  destruct (quiet_decay js (run ins (boot garbage)) (length js) Hq)
    as [Hc Ho]; [lia | lia |].
  rewrite firstn_all in Hc, Ho. rewrite Hc, Ho.
  split; [lia | apply Z.leb_gt; lia].
Qed.

Lemma X9_OS_goes_dark_witness :
  OS_on (run (repeat still_cycle 50) (run [edge_cycle] (boot all_zero)) PORTB)
  = false.
Proof.
  refine (proj2 (proj2 (X9_OS_goes_dark all_zero [edge_cycle]
                          (repeat still_cycle 50) _ _))).
  - vm_compute. repeat split.
  - simpl. lia.
Defined.

(** * The polling variant *)

Ltac unfold_polling :=
  unfold Polling.cycle, Polling.detect, Polling.measure,
    Polling.check_floating, Polling.check_slow, Polling.level_changed,
    Polling.OSC_DUR;
  unfold_loop.

Lemma polling_cycle_unfold (i : inputs) (s : state) :
  Polling.cycle i s = set_leds (Polling.detect i s).
Proof. reflexivity. Qed.

Lemma polling_detect_unfold (i : inputs) (s : state) :
  Polling.detect i s = remember (Polling.check_slow (Polling.measure i s)).
Proof. reflexivity. Qed.

(** The measurement is that of the first program, but for PCMSK and
    for what an interrupt does to the count. *)
Lemma polling_measure_same (x : var) (i : inputs) (s : state) :
  x <> PCMSK -> x <> isOscillating ->
  Polling.measure i s x = measure i s x.
Proof.
  intros H1 H2.
  destruct x; try (now elim H1); try (now elim H2);
    unfold_polling; exec; congruence.
Qed.

Lemma polling_measure_counter (i : inputs) (s : state) :
  Polling.measure i s isOscillating = s isOscillating.
Proof. unfold_polling. exec; reflexivity. Qed.

Lemma polling_detect_kept (x : var) (i : inputs) (s : state) :
  In x [PORTB; isHigh; isLow; isFloating] ->
  Polling.detect i s x = Polling.measure i s x.
Proof.
  intros Hx. rewrite polling_detect_unfold.
  assert (Hr : preserves x remember)
    by (cbn [In] in Hx; intuition subst; frame).
  assert (Hc : preserves x Polling.check_slow)
    by (cbn [In] in Hx; intuition subst; unfold Polling.check_slow; frame).
  now rewrite (Hr (Polling.check_slow _)), (Hc (Polling.measure i s)).
Qed.

Lemma polling_detect_counter (i : inputs) (s : state) :
  Polling.detect i s isOscillating =
  if Polling.level_changed (Polling.measure i s) =? 0
  then s isOscillating
  else Polling.OSC_DUR.
Proof.
  rewrite polling_detect_unfold.
  assert (Hr : preserves isOscillating remember) by frame.
  rewrite (Hr (Polling.check_slow _)). unfold Polling.check_slow, ifnz.
  destruct (Polling.level_changed (Polling.measure i s) =? 0).
  - unfold skip. apply polling_measure_counter.
  - unfold assign. now rewrite upd_same.
Qed.

Lemma polling_level_changed_spec (d : state) :
  Polling.level_changed d <> 0 <->
  (d isHigh <> 0 /\ d lastLow <> 0) \/ (d isLow <> 0 /\ d lastHigh <> 0).
Proof.
  unfold Polling.level_changed, c_and, c_or, rd, c_bool.
  destruct (d isHigh =? 0) eqn:Eh, (d lastLow =? 0) eqn:El,
           (d isLow =? 0) eqn:Ew, (d lastHigh =? 0) eqn:Ep;
    cbn [negb Z.eqb]; eqb_props; split; intros H;
    try discriminate; try (now elim H); tauto.
Qed.

Lemma set_leds_floating (s : state) :
  s isFloating <> 0 ->
  pin 0 (set_leds s PORTB) = false /\ pin 2 (set_leds s PORTB) = true.
Proof.
  intros Hf. apply Z.eqb_neq in Hf. cells.
  unfold_loop. exec; try congruence. split; pins; reflexivity.
Qed.

(** X10.  In the polling variant a cycle in which the floating check
    reports floating shows [0b100] on the LED pins even while the count
    is running, and it does not decrement the count: the count leaves
    the cycle as the slow oscillation check left it. *)
Theorem X10_polling_floating_freezes_count (i : inputs) (s : state) :
  Polling.measure i s isFloating <> 0 ->
  leds (Polling.cycle i s PORTB) = 4
  /\ OS_on (Polling.cycle i s PORTB) = false
  /\ Polling.cycle i s isOscillating = Polling.detect i s isOscillating.
Proof.
  intros Hf. rewrite polling_cycle_unfold.
  rewrite <- (polling_detect_kept isFloating i s) in Hf by (cbn [In]; auto).
  destruct (set_leds_floating _ Hf) as [H0 H2].
  apply Z.eqb_neq in Hf.
  rewrite (set_leds_table (Polling.detect i s)),
    (set_leds_counter (Polling.detect i s)), Hf.
  unfold OS_on. rewrite H0. repeat split.
Qed.

Lemma X10_polling_floating_freezes_count_witness :
  Polling.cycle (mkInputs 900 0 8 0 300)
    (Polling.cycle (mkInputs 900 0 8 8 500)
       (Polling.cycle (mkInputs 900 0 8 8 100) (Polling.boot all_zero)))
    isOscillating = 254.
Proof.
  refine (proj2 (proj2 (X10_polling_floating_freezes_count
                          (mkInputs 900 0 8 0 300) _ _))).
  vm_compute. discriminate.
Defined.

(** One calm cycle of the polling variant. *)
Lemma polling_calm_cycle (j : inputs) (s : state) :
  Polling.measure j s isFloating = 0 ->
  Polling.level_changed (Polling.measure j s) = 0 ->
  0 <= s isOscillating < 2 ^ 8 ->
  Polling.cycle j s isOscillating = Z.max 0 (s isOscillating - 1)
  /\ OS_on (Polling.cycle j s PORTB) = (1 <=? s isOscillating).
Proof.
  intros Hf Hl Hr.
  assert (Hd : Polling.detect j s isOscillating = s isOscillating)
    by (rewrite polling_detect_counter, Hl; reflexivity).
  rewrite <- (polling_detect_kept isFloating j s) in Hf by (cbn [In]; auto).
  rewrite polling_cycle_unfold, (set_leds_counter (Polling.detect j s)), Hf, Hd.
  cbn [Z.eqb].
  destruct (s isOscillating =? 0) eqn:E.
  - apply Z.eqb_eq in E. split; [rewrite E; reflexivity|].
    rewrite E in Hd. rewrite E. cbn [Z.leb Z.compare].
    generalize dependent (Polling.detect j s). intros d Hf Hd. cells.
    unfold_loop. exec; eqb_props; try congruence; pins; reflexivity.
  - apply Z.eqb_neq in E. rewrite wrap_small by lia. split; [lia|].
    assert (Hn : Polling.detect j s isOscillating <> 0) by (rewrite Hd; exact E).
    destruct (set_leds_oscillating _ Hf Hn) as [H0 H2].
    unfold OS_on. rewrite H0, H2. symmetry. apply Z.leb_le. lia.
Qed.

Lemma polling_calm_decay (js : list inputs) :
  forall (s : state) (k : nat),
    Polling.calm s js ->
    0 <= s isOscillating < 2 ^ 8 ->
    (1 <= k <= length js)%nat ->
    Polling.run (firstn k js) s isOscillating
    = Z.max 0 (s isOscillating - Z.of_nat k)
    /\ OS_on (Polling.run (firstn k js) s PORTB)
       = (Z.of_nat k <=? s isOscillating).
Proof.
  induction js as [|j js IH]; intros s k Hq Hr Hk; cbn [length] in Hk; [lia|].
  destruct Hq as (Hf & Hl & Hq).
  destruct (polling_calm_cycle j s Hf Hl Hr) as [Hc Ho].
  destruct k as [|k]; [lia|]. cbn [firstn Polling.run]. unfold seq.
  destruct k as [|k].
  - cbn [firstn Polling.run]. unfold skip. rewrite Hc, Ho.
    split; [f_equal; lia | reflexivity].
  - destruct (IH (Polling.cycle j s) (S k) Hq) as [Hc' Ho'];
      [rewrite Hc; lia | lia |].
    rewrite Hc', Ho', Hc. split; [lia|].
    destruct (Z.leb_spec (Z.of_nat (S k)) (Z.max 0 (s isOscillating - 1)));
      destruct (Z.leb_spec (Z.of_nat (S (S k))) (s isOscillating));
      lia || reflexivity.
Qed.

(** X11.  In the polling variant, over cycles in which the line does
    not read floating and the classification does not change side, a
    count [c] (any [uint8_t]) goes down by exactly one per cycle until
    it is 0, and OS is shown in the first [c] of these cycles and in
    none after. *)
Theorem X11_polling_decay (s : state) (js : list inputs) (k : nat) :
  Polling.calm s js ->
  0 <= s isOscillating < 2 ^ 8 ->
  (1 <= k <= length js)%nat ->
  Polling.run (firstn k js) s isOscillating
  = Z.max 0 (s isOscillating - Z.of_nat k)
  /\ OS_on (Polling.run (firstn k js) s PORTB)
     = (Z.of_nat k <=? s isOscillating).
Proof. intros Hq Hr Hk. now apply polling_calm_decay. Qed.

Lemma X11_polling_decay_witness :
  OS_on (Polling.run (firstn 254 (repeat (mkInputs 900 0 8 8 500) 255))
           (Polling.cycle (mkInputs 900 0 8 8 500)
              (Polling.cycle (mkInputs 900 0 8 8 100) (Polling.boot all_zero)))
           PORTB) = true
  /\ OS_on (Polling.run (firstn 255 (repeat (mkInputs 900 0 8 8 500) 255))
              (Polling.cycle (mkInputs 900 0 8 8 500)
                 (Polling.cycle (mkInputs 900 0 8 8 100) (Polling.boot all_zero)))
              PORTB) = false.
Proof.
  assert (Hq : Polling.calm
                 (Polling.cycle (mkInputs 900 0 8 8 500)
                    (Polling.cycle (mkInputs 900 0 8 8 100)
                       (Polling.boot all_zero)))
                 (repeat (mkInputs 900 0 8 8 500) 255))
    by (vm_compute; repeat split).
  split.
  - refine (proj2 (X11_polling_decay _ _ 254%nat Hq _ _)).
    + vm_compute. split; [discriminate | reflexivity].
    + simpl. lia.
  - refine (proj2 (X11_polling_decay _ _ 255%nat Hq _ _)).
    + vm_compute. split; [discriminate | reflexivity].
    + simpl. lia.
Defined.

Lemma polling_cycle_kept (x : var) (i : inputs) (s : state) :
  x <> PORTB -> x <> isOscillating -> x <> lastHigh -> x <> lastLow ->
  Polling.cycle i s x = Polling.measure i s x.
Proof.
  intros H1 H2 H3 H4.
  rewrite polling_cycle_unfold, polling_detect_unfold.
  assert (Hl : preserves x set_leds)
    by (destruct x; try (now elim H1); try (now elim H2); frame).
  assert (Hr : preserves x remember)
    by (destruct x; try (now elim H3); try (now elim H4); frame).
  assert (Hc : preserves x Polling.check_slow)
    by (destruct x; try (now elim H2); unfold Polling.check_slow; frame).
  now rewrite (Hl (remember _)), (Hr (Polling.check_slow _)),
    (Hc (Polling.measure i s)).
Qed.

Lemma polling_cycle_last (i : inputs) (s : state) :
  Polling.cycle i s lastHigh = Polling.measure i s isHigh
  /\ Polling.cycle i s lastLow = Polling.measure i s isLow.
Proof.
  rewrite polling_cycle_unfold, polling_detect_unfold.
  assert (H1 : preserves lastHigh set_leds) by frame.
  assert (H3 : preserves lastLow set_leds) by frame.
  rewrite (H1 (remember _)), (H3 (remember _)).
  assert (Hh : exists b, Polling.measure i s isHigh = c_bool b)
    by (eexists; rewrite polling_measure_same by discriminate;
        apply measure_isHigh).
  assert (Hw : exists b, Polling.measure i s isLow = c_bool b)
    by (eexists; rewrite polling_measure_same by discriminate;
        apply measure_isLow).
  destruct Hh as [bh Hh], Hw as [bl Hw].
  revert Hh Hw. generalize (Polling.measure i s). intros m Hh Hw. cells.
  unfold Polling.check_slow, Polling.level_changed, Polling.OSC_DUR.
  unfold_loop. exec; rewrite ?Hh, ?Hw, ?wrap8_c_bool; split; reflexivity.
Qed.

(** X12.  In the polling variant the slow oscillation check is not
    gated by the floating flag.  If one cycle classified the line LOW
    and the next classifies it HIGH, or HIGH and then LOW, the count is
    set to 255 in the second cycle whether or not the line reads
    floating there.  Not floating, that cycle shows OS and ends with
    the count at 254; floating, it shows [0b100] and keeps the count at
    255. *)
Theorem X12_polling_slow_oscillation (i1 i2 : inputs) (s : state) :
  (Polling.cycle i1 s isLow <> 0
   /\ Polling.measure i2 (Polling.cycle i1 s) isHigh <> 0)
  \/ (Polling.cycle i1 s isHigh <> 0
      /\ Polling.measure i2 (Polling.cycle i1 s) isLow <> 0) ->
  Polling.detect i2 (Polling.cycle i1 s) isOscillating = 255
  /\ (Polling.measure i2 (Polling.cycle i1 s) isFloating = 0 ->
      OS_on (Polling.cycle i2 (Polling.cycle i1 s) PORTB) = true
      /\ Polling.cycle i2 (Polling.cycle i1 s) isOscillating = 254)
  /\ (Polling.measure i2 (Polling.cycle i1 s) isFloating <> 0 ->
      leds (Polling.cycle i2 (Polling.cycle i1 s) PORTB) = 4
      /\ Polling.cycle i2 (Polling.cycle i1 s) isOscillating = 255).
Proof.
  intros Hchange.
  destruct (polling_cycle_last i1 s) as [Hlh Hll].
  rewrite <- (polling_cycle_kept isHigh i1 s) in Hlh by discriminate.
  rewrite <- (polling_cycle_kept isLow i1 s) in Hll by discriminate.
  assert (Hlc : Polling.level_changed
                  (Polling.measure i2 (Polling.cycle i1 s)) <> 0).
  { apply polling_level_changed_spec.
    rewrite !(polling_measure_same lastHigh), !(polling_measure_same lastLow)
      by discriminate.
    rewrite measure_lastHigh, measure_lastLow, Hlh, Hll. tauto. }
  apply Z.eqb_neq in Hlc.
  assert (Hd : Polling.detect i2 (Polling.cycle i1 s) isOscillating = 255)
    by (rewrite polling_detect_counter, Hlc; reflexivity).
  split; [exact Hd|].
  rewrite (polling_cycle_unfold i2 (Polling.cycle i1 s)).
  rewrite <- (polling_detect_kept isFloating i2 (Polling.cycle i1 s))
    by (cbn [In]; auto).
  split; intros Hf.
  - assert (Hn : Polling.detect i2 (Polling.cycle i1 s) isOscillating <> 0)
      by (rewrite Hd; discriminate).
    destruct (set_leds_oscillating _ Hf Hn) as [H0 H2].
    unfold OS_on. rewrite H0, H2. split; [reflexivity|].
    rewrite (set_leds_counter (Polling.detect i2 (Polling.cycle i1 s))),
      Hf, Hd. reflexivity.
  - apply Z.eqb_neq in Hf.
    rewrite (set_leds_table (Polling.detect i2 (Polling.cycle i1 s))),
      (set_leds_counter (Polling.detect i2 (Polling.cycle i1 s))), Hf, Hd.
    split; reflexivity.
Qed.

Lemma X12_polling_slow_oscillation_witness :
  Polling.detect (mkInputs 900 0 8 0 500)
    (Polling.cycle (mkInputs 900 0 8 8 100) (Polling.boot all_zero))
    isOscillating = 255.
Proof.
  refine (proj1 (X12_polling_slow_oscillation
                   (mkInputs 900 0 8 8 100) (mkInputs 900 0 8 0 500)
                   (Polling.boot all_zero) _)).
  vm_compute. left. split; discriminate.
Defined.

(** ** The two variants side by side *)

Ltac in_list := cbn [In]; repeat first [left; reflexivity | right].

Lemma cycle_sense (i : inputs) (s : state) :
  cycle i s = set_leds (sense i s).
Proof. reflexivity. Qed.

Lemma set_leds_PORTB (s : state) :
  set_leds s PORTB =
  let p0 := wrap 8 (Z.land (s PORTB) 248) in
  if s isFloating =? 0
  then
    let p1 := if s isLow =? 0 then p0 else wrap 8 (Z.lor p0 2) in
    let p2 := if s isHigh =? 0 then p1 else wrap 8 (Z.lor p1 5) in
    if s isOscillating =? 0
    then p2
    else wrap 8 (Z.lor (wrap 8 (Z.land p2 251)) 1)
  else wrap 8 (Z.lor p0 4).
Proof.
  unfold_loop. exec;
    repeat match goal with
           | H : (?a =? 0) = _ |- context [?a =? 0] => rewrite H
           end; eqb_props; try congruence; reflexivity.
Qed.

Lemma set_leds_PORTB_ext (s1 s2 : state) :
  s1 PORTB = s2 PORTB ->
  s1 isFloating = s2 isFloating ->
  s1 isLow = s2 isLow ->
  s1 isHigh = s2 isHigh ->
  (s1 isOscillating =? 0) = (s2 isOscillating =? 0) ->
  set_leds s1 PORTB = set_leds s2 PORTB.
Proof.
  intros Hp Hf Hl Hh Ho.
  rewrite (set_leds_PORTB s1), (set_leds_PORTB s2).
  now rewrite Hp, Hf, Hl, Hh, Ho.
Qed.

Lemma cycle_kept (x : var) (i : inputs) (s : state) :
  x <> PORTB -> x <> isOscillating -> x <> isFloating ->
  x <> lastHigh -> x <> lastLow ->
  cycle i s x = measure i s x.
Proof.
  intros H1 H2 H3 H4 H5. rewrite cycle_unfold.
  assert (Hl : preserves x set_leds)
    by (destruct x; try (now elim H1); try (now elim H2); frame).
  assert (Ho : preserves x override_floating)
    by (destruct x; try (now elim H3); frame).
  assert (Hr : preserves x remember)
    by (destruct x; try (now elim H4); try (now elim H5); frame).
  assert (Hc : preserves x check_slow)
    by (destruct x; try (now elim H2); frame).
  now rewrite (Hl (override_floating _)), (Ho (remember _)),
    (Hr (check_slow _)), (Hc (measure i s)).
Qed.

Lemma level_changed_agree (i : inputs) (s : state) :
  measure i s isFloating = 0 ->
  (level_changed (measure i s) =? 0)
  = (Polling.level_changed (Polling.measure i s) =? 0).
Proof.
  intros Hf.
  assert (He : Polling.level_changed (Polling.measure i s)
               = Polling.level_changed (measure i s)).
  { unfold Polling.level_changed, c_or, c_and, rd.
    now rewrite (polling_measure_same isHigh), (polling_measure_same lastLow),
      (polling_measure_same isLow), (polling_measure_same lastHigh)
      by discriminate. }
  rewrite He.
  change (level_changed (measure i s))
    with (c_and (c_not (rd isFloating)) Polling.level_changed (measure i s)).
  unfold c_and, c_not, rd. rewrite Hf. cbn [Z.eqb c_bool].
  destruct (Polling.level_changed (measure i s) =? 0); reflexivity.
Qed.

(** X13.  On a cycle without pin change interrupt in which the line
    does not read floating, the two variants do the same from the same
    state: every cell ends with the same value, but for PCMSK, which
    the polling variant never writes, and for the count.  The count is
    the same as well when the classification has not changed side; when
    it has, the first variant ends the cycle with 49 and the polling
    variant with 254. *)
Theorem X13_variants_agree (i : inputs) (s : state) :
  edges i = 0%nat ->
  measure i s isFloating = 0 ->
  (forall x, x <> PCMSK -> x <> isOscillating ->
             Polling.cycle i s x = cycle i s x)
  /\ (level_changed (measure i s) = 0 ->
      Polling.cycle i s isOscillating = cycle i s isOscillating)
  /\ (level_changed (measure i s) <> 0 ->
      cycle i s isOscillating = 49 /\ Polling.cycle i s isOscillating = 254).
Proof.
  intros He Hf.
  pose proof (level_changed_agree i s Hf) as Hlc.
  assert (Hpf : Polling.detect i s isFloating = 0)
    by (rewrite (polling_detect_kept isFloating i s) by in_list;
        rewrite (polling_measure_same isFloating i s) by discriminate;
        exact Hf).
  destruct (sense_cells i s) as (Hsf & Hso & Hsl & Hsh & Hsp).
  assert (Hsf0 : sense i s isFloating = 0)
    by (rewrite Hsf, Hf; destruct (detect i s isOscillating =? 0); reflexivity).
  assert (Hdc : detect i s isOscillating
                = if level_changed (measure i s) =? 0
                  then s isOscillating else OSC_DUR)
    by (rewrite (detect_counter i s), He; reflexivity).
  assert (Hpc : Polling.detect i s isOscillating
                = if level_changed (measure i s) =? 0
                  then s isOscillating else Polling.OSC_DUR)
    by (rewrite (polling_detect_counter i s), <- Hlc; reflexivity).
  assert (Hz : (Polling.detect i s isOscillating =? 0)
               = (sense i s isOscillating =? 0)).
  { rewrite Hso, Hdc, Hpc.
    destruct (level_changed (measure i s) =? 0); reflexivity. }
  assert (Hcp : Polling.cycle i s isOscillating
                = if Polling.detect i s isOscillating =? 0
                  then 0 else wrap 8 (Polling.detect i s isOscillating - 1)).
  { rewrite (polling_cycle_unfold i s),
      (set_leds_counter (Polling.detect i s)), Hpf. reflexivity. }
  assert (Hk : forall x, x <> PORTB -> x <> isOscillating ->
               x <> isFloating -> x <> lastHigh -> x <> lastLow ->
               x <> PCMSK ->
               Polling.cycle i s x = cycle i s x).
  { intros x H1 H2 H3 H4 H5 H6.
    rewrite (polling_cycle_kept x i s), (cycle_kept x i s) by assumption.
    apply polling_measure_same; assumption. }
  split; [|split].
  - intros x H1 H2.
    destruct (polling_cycle_last i s) as [Hph Hpl].
    destruct (cycle_last i s) as [Hch Hcl].
    destruct x;
      try (exfalso; apply H1; reflexivity);
      try (exfalso; apply H2; reflexivity);
      try (apply Hk; discriminate).
    + rewrite (polling_cycle_unfold i s), (cycle_sense i s).
      apply set_leds_PORTB_ext.
      * rewrite Hsp, (polling_detect_kept PORTB i s) by in_list.
        apply polling_measure_same; discriminate.
      * rewrite Hpf, Hsf0. reflexivity.
      * rewrite Hsl, (polling_detect_kept isLow i s) by in_list.
        apply polling_measure_same; discriminate.
      * rewrite Hsh, (polling_detect_kept isHigh i s) by in_list.
        apply polling_measure_same; discriminate.
      * exact Hz.
    + rewrite Hph, Hch, (classification_kept isHigh i s) by in_list.
      apply polling_measure_same; discriminate.
    + rewrite Hpl, Hcl, (classification_kept isLow i s) by in_list.
      apply polling_measure_same; discriminate.
    + assert (Hl : preserves isFloating set_leds) by frame.
      rewrite (polling_cycle_unfold i s), (cycle_sense i s).
      rewrite (Hl (Polling.detect i s)), (Hl (sense i s)), Hpf, Hsf0.
      reflexivity.
  - intros H0.
    rewrite Hcp, (cycle_counter i s), Hpc, Hdc, H0. reflexivity.
  - intros Hn. apply Z.eqb_neq in Hn.
    rewrite Hcp, (cycle_counter i s), Hpc, Hdc, Hn. split; reflexivity.
Qed.

Lemma X13_variants_agree_witness :
  Polling.cycle still_cycle (boot all_zero) PORTB
  = cycle still_cycle (boot all_zero) PORTB.
Proof.
  refine (proj1 (X13_variants_agree still_cycle (boot all_zero) _ _) PORTB _ _);
    reflexivity || discriminate.
Defined.

(** X14.  In the polling variant isOscillating is an uninitialised
    local.  It enters the first cycle with whatever the power-on
    content is, as a [uint8_t]; if that is not 0 and the line does not
    read floating, the first cycle shows OS although nothing has
    oscillated, whatever the readings and the garbage in the other
    locals are. *)
Theorem X14_polling_power_on_count (garbage : state) (i : inputs) :
  wrap 8 (garbage isOscillating) <> 0 ->
  Polling.measure i (Polling.boot garbage) isFloating = 0 ->
  Polling.boot garbage isOscillating = wrap 8 (garbage isOscillating)
  /\ OS_on (Polling.cycle i (Polling.boot garbage) PORTB) = true.
Proof.
  intros Hg Hf.
  assert (Hb : Polling.boot garbage isOscillating
               = wrap 8 (garbage isOscillating))
    by (unfold Polling.boot, Polling.power_on, setup; exec; reflexivity).
  split; [exact Hb|].
  assert (Hn : Polling.detect i (Polling.boot garbage) isOscillating <> 0).
  { rewrite (polling_detect_counter i (Polling.boot garbage)), Hb.
    destruct (Polling.level_changed _ =? 0); [exact Hg | discriminate]. }
  rewrite <- (polling_detect_kept isFloating i (Polling.boot garbage)) in Hf
    by in_list.
  rewrite (polling_cycle_unfold i (Polling.boot garbage)).
  destruct (set_leds_oscillating _ Hf Hn) as [H0 H2].
  unfold OS_on. rewrite H0, H2. reflexivity.
Qed.

Lemma X14_polling_power_on_count_witness :
  OS_on (Polling.cycle still_cycle
           (Polling.boot (mkState 0 0 0 0 7 0 0 0 0 0 0 0 0 0)) PORTB) = true.
Proof.
  refine (proj2 (X14_polling_power_on_count
                   (mkState 0 0 0 0 7 0 0 0 0 0 0 0 0 0) still_cycle _ _)).
  - vm_compute. discriminate.
  - reflexivity.
Defined.

(** ** The first cycle of the first variant *)

(** X15.  When exactly the uninitialised lastHigh/lastLow matter: in a
    first cycle without pin change interrupt the count is armed, and
    the cycle ends with it running, if and only if the line does not
    read floating and either the reading is HIGH and the power-on
    content of lastLow is not 0, or the reading is LOW and the power-on
    content of lastHigh is not 0 (as [uint8_t]).  With both at 0 the
    first cycle never shows a spurious OS. *)
Theorem X15_first_cycle_spurious_OS (garbage : state) (i : inputs) :
  edges i = 0%nat ->
  (cycle i (boot garbage) isOscillating <> 0 <->
   measure i (boot garbage) isFloating = 0
   /\ ((measure i (boot garbage) isHigh <> 0 /\ wrap 8 (garbage lastLow) <> 0)
       \/ (measure i (boot garbage) isLow <> 0
           /\ wrap 8 (garbage lastHigh) <> 0)))
  /\ OS_on (cycle i (boot garbage) PORTB)
     = negb (cycle i (boot garbage) isOscillating =? 0).
Proof.
  intros He.
  assert (Hb : boot garbage isOscillating = 0
               /\ boot garbage lastLow = wrap 8 (garbage lastLow)
               /\ boot garbage lastHigh = wrap 8 (garbage lastHigh))
    by (unfold boot, power_on, setup; exec; repeat split).
  destruct Hb as (Hc & Hl & Hh).
  assert (Hd : detect i (boot garbage) isOscillating
               = if level_changed (measure i (boot garbage)) =? 0
                 then 0 else OSC_DUR)
    by (rewrite (detect_counter i (boot garbage)), He, Hc; reflexivity).
  pose proof (level_changed_spec (measure i (boot garbage))) as Hs.
  rewrite (measure_lastLow i (boot garbage)),
    (measure_lastHigh i (boot garbage)), Hl, Hh in Hs.
  rewrite (cycle_OS_on i (boot garbage)), (cycle_counter i (boot garbage)), Hd.
  destruct (level_changed (measure i (boot garbage)) =? 0) eqn:E.
  - apply Z.eqb_eq in E. split; [|reflexivity]. split.
    + intros H. now elim H.
    + intros H. apply Hs in H. now elim H.
  - apply Z.eqb_neq in E. split; [|reflexivity]. split.
    + intros _. now apply Hs.
    + intros _. discriminate.
Qed.

Lemma X15_first_cycle_spurious_OS_witness :
  OS_on (cycle (mkInputs 900 0 8 8 500) (boot (upd all_zero lastLow 1)) PORTB)
  = negb (cycle (mkInputs 900 0 8 8 500) (boot (upd all_zero lastLow 1))
            isOscillating =? 0).
Proof.
  refine (proj2 (X15_first_cycle_spurious_OS
                   (upd all_zero lastLow 1) (mkInputs 900 0 8 8 500) _)).
  reflexivity.
Defined.
